(** * MentorBackend: argument analysis (a2a-agent.js) and agent router (mcp.js)

    A shallow embedding of the decision logic of [src/server/a2a-agent.js]
    (class [A2AAgent]) and [src/server/mcp.js] (class [MCP]), and the
    properties of the design document checked against it.

    Conventions of the embedding.
    - A JavaScript string is the list of its UTF-16 code units ([jsstring]).
      String literals of the source are written [js "..."]: the Rocq literal
      holds the UTF-8 bytes of the source file and [js] decodes them.
    - A JavaScript number that holds a count is a [nat]; a score is a
      rational [Q] (the scores of the source are quotients of small
      integers; binary rounding is not modelled).  [Math.min] and
      [Math.max] are [Qmin] and [Qmax].
    - A JavaScript object used as a table is a [gmap] keyed by strings.
    - [async]/[await] is sequential composition: no method of the two
      classes runs concurrently with another one inside one call. *)

From Stdlib Require Import Ascii String QArith Qminmax Lqa.
From stdpp Require Import gmap strings list.

Local Open Scope N_scope.

(** ** JavaScript strings *)

Module JS.

Definition jsstring := list N.

  (** Code units of one code point (surrogate pair above the BMP). *)
Definition units (cp : N) : jsstring :=
    if cp <? 0x10000 then [cp]
    else [0xD800 + (cp - 0x10000) / 0x400; 0xDC00 + (cp - 0x10000) mod 0x400].

  (** UTF-8 decoder: [need] continuation bytes are still expected for the
      code point accumulated in [acc]. *)
Fixpoint utf8 (need : nat) (acc : N) (bs : list N) : jsstring :=
    match bs with
    | [] => []
    | b :: bs' =>
        match need with
        | O =>
            if b <? 0x80 then b :: utf8 0 0 bs'
            else if b <? 0xE0 then utf8 1 (b mod 0x20) bs'
            else if b <? 0xF0 then utf8 2 (b mod 0x10) bs'
            else utf8 3 (b mod 0x08) bs'
        | S n =>
            let acc' := acc * 0x40 + b mod 0x40 in
            match n with
            | O => units acc' ++ utf8 0 0 bs'
            | S _ => utf8 n acc' bs'
            end
        end
    end.

Fixpoint bytes (s : string) : list N :=
    match s with
    | EmptyString => []
    | String a s' => N_of_ascii a :: bytes s'
    end.

  (** A string literal of the source. *)
Definition js (s : string) : jsstring := utf8 0 0 (bytes s).
Arguments js s%_string.

  (** [String.prototype.toLowerCase], on the Basic Latin and Latin-1
      Supplement blocks (the blocks the indicator tables are written in);
      other code units are kept. *)
Definition lowerUnit (c : N) : N :=
    if (0x41 <=? c) && (c <=? 0x5A) then c + 0x20
    else if (0xC0 <=? c) && (c <=? 0xDE) && negb (c =? 0xD7) then c + 0x20
    else c.

Definition toLowerCase (s : jsstring) : jsstring := map lowerUnit s.

  (** [s.startsWith(p)]. *)
Fixpoint startsWith (p s : jsstring) : bool :=
    match p, s with
    | [], _ => true
    | _ :: _, [] => false
    | a :: p', b :: s' => (a =? b) && startsWith p' s'
    end.

  (** [s.includes(p)]. *)
Fixpoint includes (s p : jsstring) : bool :=
    startsWith p s ||
    match s with
    | [] => false
    | _ :: s' => includes s' p
    end.

  (** [s.split(sep)] for a non-empty separator [sep]: the text is scanned
      from the left, every occurrence of [sep] that starts after the end of
      the previous one closes a piece.  [skip] counts the units of the
      current occurrence that are still to be passed over, [cur] is the
      piece being collected. *)
Fixpoint splitFrom (sep s : jsstring) (skip : nat) (cur : jsstring)
    : list jsstring :=
    match s with
    | [] => [cur]
    | c :: s' =>
        match skip with
        | S k => splitFrom sep s' k cur
        | O =>
            if startsWith sep s
            then cur :: splitFrom sep s' (pred (length sep)) []
            else splitFrom sep s' 0 (cur ++ [c])
        end
    end.

Definition split (s sep : jsstring) : list jsstring := splitFrom sep s 0 [].

  (** [s.split(/[.!?]+/)]: pieces between maximal runs of sentence marks. *)
Definition isSentenceMark (c : N) : bool :=
    (c =? 0x2E) || (c =? 0x21) || (c =? 0x3F).

Fixpoint splitMarks (s : jsstring) (inRun : bool) (cur : jsstring)
    : list jsstring :=
    match s with
    | [] => [cur]
    | c :: s' =>
        if isSentenceMark c
        then if inRun then splitMarks s' true cur
             else cur :: splitMarks s' true []
        else splitMarks s' false (cur ++ [c])
    end.

Definition splitSentences (s : jsstring) : list jsstring :=
    splitMarks s false [].

  (** White space and line terminators removed by [trim]. *)
Definition isWhiteSpace (c : N) : bool :=
    ((0x09 <=? c) && (c <=? 0x0D)) || (c =? 0x20) || (c =? 0xA0)
    || (c =? 0x1680) || ((0x2000 <=? c) && (c <=? 0x200A))
    || (c =? 0x2028) || (c =? 0x2029) || (c =? 0x202F) || (c =? 0x205F)
    || (c =? 0x3000) || (c =? 0xFEFF).

Fixpoint trimStart (s : jsstring) : jsstring :=
    match s with
    | [] => []
    | c :: s' => if isWhiteSpace c then trimStart s' else s
    end.

Definition trim (s : jsstring) : jsstring :=
    rev (trimStart (rev (trimStart s))).

  (** [Array.prototype.slice(start, end)] with relative (negative) bounds. *)
Definition relIndex (len : nat) (i : Z) : nat :=
    if (i <? 0)%Z then Z.to_nat (Z.max (Z.of_nat len + i) 0)
    else Nat.min (Z.to_nat i) len.

Definition slice {A} (l : list A) (start : Z) (stop : option Z) : list A :=
    let len := length l in
    let k := relIndex len start in
    let final := match stop with
                 | None => len
                 | Some e => relIndex len e
                 end in
    take (final - k)%nat (drop k l).

End JS.

(** ** Numbers *)

Module Num.

  (** A count read as a score. *)
Definition ofCount (n : nat) : Q := inject_Z (Z.of_nat n).

  (** [x < y] and [x > y] on scores. *)
Definition ltb (x y : Q) : bool :=
    match (x ?= y)%Q with Lt => true | _ => false end.
Definition gtb (x y : Q) : bool := ltb y x.

  (** [lo <= x <= hi]. *)
Definition between (lo hi x : Q) : Prop := (lo <= x)%Q /\ (x <= hi)%Q.

Definition sumQ (l : list Q) : Q := foldl Qplus 0%Q l.

End Num.

(** ** The records of an analysis (a2a-agent.js, lines 103-172, 795-813) *)

Module Structure.
Record t := mk {
    hasIntroduction : bool;
    hasBody : bool;
    hasConclusion : bool;
    sentenceCount : nat;
    averageSentenceLength : Q;
    coherence : Q;
    organization : Q }.
End Structure.

Module Content.
Record t := mk {
    hasThesis : bool;
    thesisClarity : Q;
    topicRelevance : Q;
    depth : Q;
    breadth : Q }.
End Content.

Module Reasoning.
Record t := mk {
    logicalConnections : nat;
    argumentFlow : Q;
    consistency : Q;
    fallacies : nat;
    reasoningQuality : Q }.
End Reasoning.

Module Evidence.
Record t := mk {
    evidenceCount : nat;
    evidenceTypes : list JS.jsstring;
    evidenceQuality : Q;
    sourceDependency : Q;
    evidenceRelevance : Q }.
End Evidence.

Module CriticalThinking.
Record t := mk {
    questioning : nat;
    analysis : nat;
    evaluation : nat;
    synthesis : nat;
    metacognition : nat;
    overallLevel : Q }.
End CriticalThinking.

Module Originality.
Record t := mk {
    sourceDependency : Q;
    personalInsights : nat;
    creativeElements : nat;
    originalityScore : Q }.
End Originality.

Module Overall.
Record t := mk {
    structure : Q;
    content : Q;
    reasoning : Q;
    evidence : Q;
    criticalThinking : Q;
    originality : Q;
    total : Q }.
End Overall.

(** The six dimensions: the analysis object of [performArgumentAnalysis]
    before [analysis.overall] is assigned, and the part of it every later
    reader looks at. *)
Module Dimensions.
Record t := mk {
    structure : Structure.t;
    content : Content.t;
    reasoning : Reasoning.t;
    evidence : Evidence.t;
    criticalThinking : CriticalThinking.t;
    originality : Originality.t }.
End Dimensions.

Module Analysis.
Record t := mk {
    dimensions : Dimensions.t;
    overall : Overall.t }.
End Analysis.

Module Weakness.
Record t := mk {
    type : JS.jsstring;
    area : JS.jsstring;
    score : Q;
    priority : JS.jsstring }.
End Weakness.

Module Strength.
Record t := mk {
    area : JS.jsstring;
    message : JS.jsstring;
    score : Q }.
End Strength.

Module FeedbackTemplate.
Record t := mk {
    message : JS.jsstring;
    suggestion : JS.jsstring;
    priority : JS.jsstring }.
End FeedbackTemplate.

Module FeedbackItem.
Record t := mk {
    type : JS.jsstring;
    message : JS.jsstring;
    suggestion : JS.jsstring;
    priority : JS.jsstring;
    area : JS.jsstring;
    score : Q }.
End FeedbackItem.

Module ChallengeTemplate.
Record t := mk {
    prompt : JS.jsstring;
    skill : JS.jsstring;
    hint : JS.jsstring;
    criteria : JS.jsstring }.
End ChallengeTemplate.

Module MicroChallenge.
Record t := mk {
    id : JS.jsstring;
    type : JS.jsstring;
    prompt : JS.jsstring;
    skill : JS.jsstring;
    hint : JS.jsstring;
    criteria : JS.jsstring;
    priority : JS.jsstring;
    estimatedTime : JS.jsstring }.
End MicroChallenge.

Module HistoryEntry.
Record t := mk {
    timestamp : N;
    analysis : Analysis.t;
    feedback : list FeedbackItem.t }.
End HistoryEntry.

Module Progress.
Record t := mk {
    trend : JS.jsstring;
    improvement : Q;
    currentScore : option Q;
    previousScore : option Q }.
End Progress.

(** ** class A2AAgent (a2a-agent.js) *)

Module A2AAgent.
Import JS Num.
Local Open Scope Q_scope.

(** The expression every counting helper folds over its indicator list:
    [text.toLowerCase().split(indicator).length - 1]. *)
Definition occurrences (text indicator : jsstring) : nat :=
  (length (split (toLowerCase text) indicator) - 1)%nat.

(** [indicators.reduce((sum, indicator) => sum + occurrences, 0)]. *)
Definition countIn (indicators : list jsstring) (text : jsstring) : nat :=
  foldl (fun sum indicator => (sum + occurrences text indicator)%nat) 0%nat
        indicators.

(** [indicators.some(indicator => text.toLowerCase().includes(indicator))]. *)
Definition someIn (indicators : list jsstring) (text : jsstring) : bool :=
  existsb (fun indicator => includes (toLowerCase text) indicator) indicators.

(** *** Feedback templates (lines 12-48) *)

Definition initializeFeedbackTemplates : gmap jsstring FeedbackTemplate.t :=
  list_to_map
    [ (js "thesis_weak",
       FeedbackTemplate.mk
         (js "Tu respuesta necesita una tesis más clara. ¿Cuál es tu posición principal sobre el tema?")
         (js "Comienza con una declaración clara de tu posición")
         (js "high"));
      (js "evidence_lacking",
       FeedbackTemplate.mk
         (js "Necesitas más evidencia para respaldar tu argumento. ¿Qué datos o ejemplos puedes usar?")
         (js "Incluye al menos 2-3 ejemplos específicos o datos relevantes")
         (js "medium"));
      (js "source_dependency",
       FeedbackTemplate.mk
         (js "Tu respuesta depende mucho de fuentes externas. ¿Cómo puedes desarrollar tu propio análisis?")
         (js "Combina información de fuentes con tu propio razonamiento")
         (js "high"));
      (js "reasoning_weak",
       FeedbackTemplate.mk
         (js "Hay inconsistencias en tu razonamiento. Revisa las conexiones entre tus ideas.")
         (js "Usa conectores lógicos para unir tus argumentos de manera coherente")
         (js "medium"));
      (js "critical_thinking_low",
       FeedbackTemplate.mk
         (js "Necesitas desarrollar más pensamiento crítico. ¿Qué preguntas puedes hacer sobre el tema?")
         (js "Considera diferentes perspectivas y cuestiona las suposiciones")
         (js "high")) ].

Definition feedbackTemplates := initializeFeedbackTemplates.

(** *** Micro-challenges (lines 226-274) *)

Definition challengeTemplates : gmap jsstring ChallengeTemplate.t :=
  list_to_map
    [ (js "thesis_weak",
       ChallengeTemplate.mk
         (js "Escribe una oración que exprese claramente tu posición principal sobre el tema")
         (js "thesis_formation")
         (js "Comienza con 'Mi posición es que...' o 'Creo que...'")
         (js "Debe ser una declaración clara y específica"));
      (js "evidence_lacking",
       ChallengeTemplate.mk
         (js "Identifica 3 datos o ejemplos específicos que respalden tu argumento")
         (js "evidence_gathering")
         (js "Busca estadísticas, ejemplos concretos o casos específicos")
         (js "Deben ser relevantes y específicos al tema"));
      (js "reasoning_weak",
       ChallengeTemplate.mk
         (js "Explica cómo una de tus ideas principales se conecta con otra")
         (js "logical_connection")
         (js "Usa palabras como 'por lo tanto', 'en consecuencia', 'esto demuestra'")
         (js "Debe mostrar una conexión lógica clara"));
      (js "critical_thinking_low",
       ChallengeTemplate.mk
         (js "Formula 2 preguntas críticas sobre el tema que no hayas considerado")
         (js "critical_questioning")
         (js "Pregunta sobre suposiciones, alternativas o implicaciones")
         (js "Deben ser preguntas que requieran análisis profundo")) ].

(** [createMicroChallenge(weakness, context)]; [None] is the [null] of the
    source.  [stamp] is the text of [Date.now()] and [suffix] the random
    suffix [Math.random().toString(36).substr(2, 9)] of this call;
    [context] is not read by the source. *)
Definition createMicroChallenge (stamp suffix : jsstring) (weakness : Weakness.t)
  : option MicroChallenge.t :=
  match challengeTemplates !! Weakness.type weakness with
  | Some template =>
      Some (MicroChallenge.mk
              (js "challenge_" ++ stamp ++ js "_" ++ suffix)
              (Weakness.type weakness)
              (ChallengeTemplate.prompt template)
              (ChallengeTemplate.skill template)
              (ChallengeTemplate.hint template)
              (ChallengeTemplate.criteria template)
              (Weakness.priority weakness)
              (js "5-10 minutos"))
  | None => None
  end.

(** *** Helper methods (lines 366-528) *)

Definition detectIntroduction (text : jsstring) : bool :=
  someIn [js "introducción"; js "en primer lugar"; js "para comenzar";
          js "inicialmente"] text.

Definition detectBody (text : jsstring) : bool := (100 <? length text)%nat.

Definition detectConclusion (text : jsstring) : bool :=
  someIn [js "en conclusión"; js "finalmente"; js "para terminar";
          js "en resumen"] text.

Definition calculateAverageSentenceLength (sentences : list jsstring) : Q :=
  if (length sentences =? 0)%nat then 0
  else
    let totalLength :=
      foldl (fun sum sentence => (sum + length (trim sentence))%nat) 0%nat
            sentences in
    ofCount totalLength / ofCount (length sentences).

Definition coherenceIndicators : list jsstring :=
  [js "por lo tanto"; js "en consecuencia"; js "además"; js "sin embargo";
   js "por otro lado"].

Definition assessCoherence (text : jsstring) : Q :=
  let count := countIn coherenceIndicators text in
  Qmin (ofCount count / 3) 1.

Definition structureIndicators : list jsstring :=
  [js "primero"; js "segundo"; js "tercero"; js "finalmente";
   js "en primer lugar"].

Definition assessOrganization (text : jsstring) : Q :=
  let count := countIn structureIndicators text in
  Qmin (ofCount count / 2) 1.

Definition thesisIndicators : list jsstring :=
  [js "creo que"; js "mi opinión"; js "considero"; js "mi posición";
   js "estoy convencido"].

Definition detectThesis (text : jsstring) : bool := someIn thesisIndicators text.

Definition assessThesisClarity (text : jsstring) : Q :=
  if detectThesis text then 0.8 else 0.3.

Definition assessTopicRelevance (text : jsstring) : Q := 0.7.

Definition depthIndicators : list jsstring :=
  [js "analizar"; js "examinar"; js "investigar"; js "profundizar";
   js "detallar"].

Definition assessDepth (text : jsstring) : Q :=
  let count := countIn depthIndicators text in
  Qmin (ofCount count / 2) 1.

Definition breadthIndicators : list jsstring :=
  [js "además"; js "también"; js "por otro lado"; js "asimismo";
   js "igualmente"].

Definition assessBreadth (text : jsstring) : Q :=
  let count := countIn breadthIndicators text in
  Qmin (ofCount count / 3) 1.

Definition connectionIndicators : list jsstring :=
  [js "por lo tanto"; js "en consecuencia"; js "esto demuestra";
   js "se puede concluir"; js "debido a"].

Definition detectLogicalConnections (text : jsstring) : nat :=
  countIn connectionIndicators text.

Definition assessArgumentFlow (text : jsstring) : Q :=
  let connections := detectLogicalConnections text in
  Qmin (ofCount connections / 3) 1.

Definition assessConsistency (text : jsstring) : Q := 0.7.

Definition fallacyIndicators : list jsstring :=
  [js "todos"; js "nunca"; js "siempre"; js "nadie"; js "todo el mundo"].

Definition detectFallacies (text : jsstring) : nat :=
  countIn fallacyIndicators text.

Definition assessReasoningQuality (text : jsstring) : Q :=
  let connections := detectLogicalConnections text in
  let fallacies := detectFallacies text in
  Qmax 0 (Qmin 1 ((ofCount connections - ofCount fallacies) / 3)).

(** *** Evidence (lines 530-581) *)

Definition evidenceTypes : list (jsstring * list jsstring) :=
  [ (js "statistics", [js "porcentaje"; js "estadística"; js "dato"; js "cifra"]);
    (js "examples", [js "ejemplo"; js "caso"; js "instancia"; js "muestra"]);
    (js "quotes", [js "cita"; js "dice"; js "menciona"; js "afirma"]);
    (js "references", [js "según"; js "fuente"; js "referencia"; js "estudio"]) ].

Module EvidenceIndicators.
Record t := mk {
  count : nat;
  types : list jsstring;
  details : list (jsstring * nat) }.
End EvidenceIndicators.

(** [counts] keeps the insertion order of the object of the source: a type
    is entered once, when its count is positive. *)
Definition extractEvidenceIndicators (text : jsstring) : EvidenceIndicators.t :=
  let counts :=
    foldl (fun counts '(type, indicators) =>
             let count := countIn indicators text in
             if (0 <? count)%nat then counts ++ [(type, count)] else counts)
          [] evidenceTypes in
  EvidenceIndicators.mk
    (foldl (fun sum count => (sum + count)%nat) 0%nat (map snd counts))
    (map fst counts)
    counts.

Definition assessEvidenceQuality (text : jsstring) : Q :=
  let evidenceIndicators := extractEvidenceIndicators text in
  Qmin (ofCount (EvidenceIndicators.count evidenceIndicators) / 5) 1.

Definition assessEvidenceRelevance (text : jsstring) : Q := 0.7.

(** *** assessSourceDependency: two methods of one name (lines 563-576, 661-663)

    A class body defines its methods on the prototype in source order, and
    a definition whose name is already present replaces the earlier one.
    The body of a method reaches [this.assessSourceDependency] through
    the prototype, so it is given, as [self], the method that name
    resolves to. *)

Definition sourceIndicators : list jsstring :=
  [js "según"; js "fuente"; js "referencia"; js "cita"; js "dice que";
   js "menciona"].

(** Lines 563-576. *)
Definition assessSourceDependency_counting (text : jsstring) : Q :=
  let count := countIn sourceIndicators text in
  Qmin (ofCount count / 5) 1.

Definition Method := (jsstring -> option Q) -> jsstring -> option Q.

Definition assessSourceDependency_first : Method :=
  fun _self text => Some (assessSourceDependency_counting text).

(** Lines 661-663: [return this.assessSourceDependency(text);]. *)
Definition assessSourceDependency_second : Method :=
  fun self text => self text.

Definition methodDefinitions : list (string * Method) :=
  [ ("assessSourceDependency"%string, assessSourceDependency_first);
    ("assessSourceDependency"%string, assessSourceDependency_second) ].

Definition prototype : gmap string Method :=
  foldl (fun proto '(name, method) => <[name := method]> proto) ∅
        methodDefinitions.

(** A call of [this.assessSourceDependency(text)].  [fuel] bounds the depth
    of nested activations; [None] says that no value is returned within
    that depth. *)
Fixpoint assessSourceDependency (fuel : nat) (text : jsstring) : option Q :=
  match fuel with
  | O => None
  | S fuel' =>
      match prototype !! "assessSourceDependency"%string with
      | Some method => method (assessSourceDependency fuel') text
      | None => None
      end
  end.

(** *** Critical thinking and originality (lines 583-700) *)

Definition questionIndicators : list jsstring :=
  [js "¿"; js "por qué"; js "cómo"; js "qué"; js "cuándo"; js "dónde"].
Definition detectQuestioning (text : jsstring) : nat :=
  countIn questionIndicators text.

Definition analysisIndicators : list jsstring :=
  [js "analizar"; js "examinar"; js "investigar"; js "estudiar"; js "evaluar"].
Definition detectAnalysis (text : jsstring) : nat :=
  countIn analysisIndicators text.

Definition evaluationIndicators : list jsstring :=
  [js "evaluar"; js "juzgar"; js "valorar"; js "considerar"; js "ponderar"].
Definition detectEvaluation (text : jsstring) : nat :=
  countIn evaluationIndicators text.

Definition synthesisIndicators : list jsstring :=
  [js "sintetizar"; js "combinar"; js "integrar"; js "unificar";
   js "consolidar"].
Definition detectSynthesis (text : jsstring) : nat :=
  countIn synthesisIndicators text.

Definition metacognitionIndicators : list jsstring :=
  [js "reflexionar"; js "pensar sobre"; js "considerar"; js "meditar";
   js "contemplar"].
Definition detectMetacognition (text : jsstring) : nat :=
  countIn metacognitionIndicators text.

Definition calculateCriticalThinkingLevel (text : jsstring) : Q :=
  let questioning := detectQuestioning text in
  let analysis := detectAnalysis text in
  let evaluation := detectEvaluation text in
  let synthesis := detectSynthesis text in
  let metacognition := detectMetacognition text in
  let total :=
    (questioning + analysis + evaluation + synthesis + metacognition)%nat in
  Qmin (ofCount total / 5) 1.

Definition personalIndicators : list jsstring :=
  [js "mi experiencia"; js "creo que"; js "pienso que"; js "mi opinión";
   js "considero"].
Definition detectPersonalInsights (text : jsstring) : nat :=
  countIn personalIndicators text.

Definition creativeIndicators : list jsstring :=
  [js "imaginemos"; js "supongamos"; js "crear"; js "diseñar"; js "innovar"].
Definition detectCreativeElements (text : jsstring) : nat :=
  countIn creativeIndicators text.

(** The value [calculateOriginalityScore] returns once
    [this.assessSourceDependency(text)] has returned [sourceDependency]. *)
Definition originalityFormula (sourceDependency : Q)
    (personalInsights creativeElements : nat) : Q :=
  Qmax 0
    (Qmin 1 (ofCount (personalInsights + creativeElements) / 5
             - sourceDependency)).

Definition calculateOriginalityScore (fuel : nat) (text : jsstring) : option Q :=
  sourceDependency ← assessSourceDependency fuel text;
  let personalInsights := detectPersonalInsights text in
  let creativeElements := detectCreativeElements text in
  Some (originalityFormula sourceDependency personalInsights creativeElements).

(** *** The six analyses (lines 103-172) *)

Definition analyzeStructure (text : jsstring) : Structure.t :=
  let sentences :=
    filter (fun s => (0 < length (trim s))%nat) (splitSentences text) in
  Structure.mk
    (detectIntroduction text)
    (detectBody text)
    (detectConclusion text)
    (length sentences)
    (calculateAverageSentenceLength sentences)
    (assessCoherence text)
    (assessOrganization text).

Definition analyzeContent (text : jsstring) : Content.t :=
  Content.mk
    (detectThesis text)
    (assessThesisClarity text)
    (assessTopicRelevance text)
    (assessDepth text)
    (assessBreadth text).

Definition analyzeReasoning (text : jsstring) : Reasoning.t :=
  Reasoning.mk
    (detectLogicalConnections text)
    (assessArgumentFlow text)
    (assessConsistency text)
    (detectFallacies text)
    (assessReasoningQuality text).

Definition analyzeEvidence (fuel : nat) (text : jsstring) : option Evidence.t :=
  let evidenceIndicators := extractEvidenceIndicators text in
  sourceDependency ← assessSourceDependency fuel text;
  Some (Evidence.mk
          (EvidenceIndicators.count evidenceIndicators)
          (EvidenceIndicators.types evidenceIndicators)
          (assessEvidenceQuality text)
          sourceDependency
          (assessEvidenceRelevance text)).

Definition analyzeCriticalThinking (text : jsstring) : CriticalThinking.t :=
  CriticalThinking.mk
    (detectQuestioning text)
    (detectAnalysis text)
    (detectEvaluation text)
    (detectSynthesis text)
    (detectMetacognition text)
    (calculateCriticalThinkingLevel text).

Definition analyzeOriginality (fuel : nat) (text : jsstring)
  : option Originality.t :=
  sourceDependency ← assessSourceDependency fuel text;
  originalityScore ← calculateOriginalityScore fuel text;
  Some (Originality.mk
          sourceDependency
          (detectPersonalInsights text)
          (detectCreativeElements text)
          originalityScore).

(** *** Overall scores (lines 795-813) *)

Definition calculateOverallScores (analysis : Dimensions.t) : Overall.t :=
  let structure := Dimensions.structure analysis in
  let content := Dimensions.content analysis in
  let evidence := Dimensions.evidence analysis in
  Overall.mk
    ((Structure.coherence structure + Structure.organization structure) / 2)
    ((Content.thesisClarity content + Content.depth content
      + Content.breadth content) / 3)
    (Reasoning.reasoningQuality (Dimensions.reasoning analysis))
    ((Evidence.evidenceQuality evidence + Evidence.evidenceRelevance evidence)
     / 2)
    (CriticalThinking.overallLevel (Dimensions.criticalThinking analysis))
    (Originality.originalityScore (Dimensions.originality analysis))
    0.

(** [performArgumentAnalysis] (lines 85-100). *)
Definition performArgumentAnalysis (fuel : nat) (text : jsstring)
  : option Analysis.t :=
  let structure := analyzeStructure text in
  let content := analyzeContent text in
  let reasoning := analyzeReasoning text in
  evidence ← analyzeEvidence fuel text;
  let criticalThinking := analyzeCriticalThinking text in
  originality ← analyzeOriginality fuel text;
  let analysis :=
    Dimensions.mk structure content reasoning evidence criticalThinking
                  originality in
  Some (Analysis.mk analysis (calculateOverallScores analysis)).

(** *** Weaknesses and strengths (lines 703-792) *)

Definition pushIf {A} (cond : bool) (x : A) (l : list A) : list A :=
  if cond then l ++ [x] else l.

Definition identifyWeaknesses (analysis : Dimensions.t) : list Weakness.t :=
  let content := Dimensions.content analysis in
  let evidence := Dimensions.evidence analysis in
  let originality := Dimensions.originality analysis in
  let reasoning := Dimensions.reasoning analysis in
  let criticalThinking := Dimensions.criticalThinking analysis in
  let weaknesses := [] in
  let weaknesses :=
    pushIf (ltb (Content.thesisClarity content) 0.6)
      (Weakness.mk (js "thesis_weak") (js "Tesis")
         (Content.thesisClarity content) (js "high")) weaknesses in
  let weaknesses :=
    pushIf (Evidence.evidenceCount evidence <? 2)%nat
      (Weakness.mk (js "evidence_lacking") (js "Evidencia")
         (ofCount (Evidence.evidenceCount evidence) / 5) (js "medium"))
      weaknesses in
  let weaknesses :=
    pushIf (gtb (Originality.sourceDependency originality) 0.7)
      (Weakness.mk (js "source_dependency") (js "Originalidad")
         (1 - Originality.sourceDependency originality) (js "high"))
      weaknesses in
  let weaknesses :=
    pushIf (ltb (Reasoning.reasoningQuality reasoning) 0.6)
      (Weakness.mk (js "reasoning_weak") (js "Razonamiento")
         (Reasoning.reasoningQuality reasoning) (js "medium")) weaknesses in
  let weaknesses :=
    pushIf (ltb (CriticalThinking.overallLevel criticalThinking) 0.5)
      (Weakness.mk (js "critical_thinking_low") (js "Pensamiento Crítico")
         (CriticalThinking.overallLevel criticalThinking) (js "high"))
      weaknesses in
  weaknesses.

Definition identifyStrengths (analysis : Dimensions.t) : list Strength.t :=
  let content := Dimensions.content analysis in
  let evidence := Dimensions.evidence analysis in
  let originality := Dimensions.originality analysis in
  let reasoning := Dimensions.reasoning analysis in
  let strengths := [] in
  let strengths :=
    pushIf (gtb (Content.thesisClarity content) 0.8)
      (Strength.mk (js "Tesis") (js "Tu tesis está bien definida y clara")
         (Content.thesisClarity content)) strengths in
  let strengths :=
    pushIf (3 <=? Evidence.evidenceCount evidence)%nat
      (Strength.mk (js "Evidencia")
         (js "Incluyes buena cantidad de evidencia para respaldar tu argumento")
         (ofCount (Evidence.evidenceCount evidence) / 5)) strengths in
  let strengths :=
    pushIf (gtb (Originality.originalityScore originality) 0.6)
      (Strength.mk (js "Originalidad")
         (js "Tu análisis muestra pensamiento original y personal")
         (Originality.originalityScore originality)) strengths in
  let strengths :=
    pushIf (gtb (Reasoning.reasoningQuality reasoning) 0.8)
      (Strength.mk (js "Razonamiento")
         (js "Tu razonamiento es lógico y bien estructurado")
         (Reasoning.reasoningQuality reasoning)) strengths in
  strengths.

(** *** Session history and progress (lines 320-363, 816-824) *)

Definition storeAnalysis (analysisHistory : gmap jsstring (list HistoryEntry.t))
    (now : N) (sessionId : jsstring) (analysis : Analysis.t)
    (feedback : list FeedbackItem.t) : gmap jsstring (list HistoryEntry.t) :=
  let analysisHistory :=
    match analysisHistory !! sessionId with
    | None => <[sessionId := []]> analysisHistory
    | Some _ => analysisHistory
    end in
  alter (fun history => history ++ [HistoryEntry.mk now analysis feedback])
        sessionId analysisHistory.

Definition calculateAverageScore (analyses : list HistoryEntry.t) : Q :=
  if (length analyses =? 0)%nat then 0
  else
    let totalScore :=
      foldl (fun sum analysis =>
               sum + Overall.total (Analysis.overall
                                      (HistoryEntry.analysis analysis)))
            0 analyses in
    totalScore / ofCount (length analyses).

Definition calculateProgress
    (analysisHistory : gmap jsstring (list HistoryEntry.t))
    (sessionId : jsstring) : Progress.t :=
  match analysisHistory !! sessionId with
  | None => Progress.mk (js "insufficient_data") 0 None None
  | Some history =>
      if (length history <? 2)%nat
      then Progress.mk (js "insufficient_data") 0 None None
      else
        let recent := slice history (-3) None in
        let older := slice history (-6) (Some (-3)%Z) in
        if (length older =? 0)%nat
        then Progress.mk (js "insufficient_data") 0 None None
        else
          let recentAvg := calculateAverageScore recent in
          let olderAvg := calculateAverageScore older in
          let improvement := recentAvg - olderAvg in
          let trend :=
            if gtb improvement 0.1 then js "improving"
            else if ltb improvement (-0.1) then js "declining"
            else js "stable" in
          Progress.mk trend improvement (Some recentAvg) (Some olderAvg)
  end.

End A2AAgent.

(** ** class MCP (mcp.js) *)

Module MCP.
Import JS.

(** *** Learning-style detection (lines 524-637) *)

(** [countIndicators(text, indicators)]. *)
Definition countIndicators (text : jsstring) (indicators : list jsstring) : nat :=
  foldl (fun count indicator =>
           (count + (length (split text indicator) - 1))%nat)
        0%nat indicators.

Definition visualIndicators : list jsstring :=
  [js "veo"; js "visualizar"; js "imagen"; js "diagrama"; js "gráfico";
   js "color"; js "forma"; js "dibujo"; js "esquema"; js "mapa"; js "foto";
   js "ilustración"; js "ver"; js "mirar"].

Definition auditoryIndicators : list jsstring :=
  [js "escucho"; js "sonido"; js "música"; js "hablar"; js "discutir";
   js "debate"; js "conversación"; js "audio"; js "podcast"; js "explicar";
   js "contar"; js "narrar"; js "oír"; js "escuchar"].

Definition readingIndicators : list jsstring :=
  [js "leer"; js "escribir"; js "texto"; js "libro"; js "artículo";
   js "ensayo"; js "notas"; js "resumen"; js "lista"; js "palabras";
   js "vocabulario"; js "definir"; js "explicar por escrito"].

Definition kinestheticIndicators : list jsstring :=
  [js "hacer"; js "experimentar"; js "práctica"; js "manos"; js "tocar";
   js "construir"; js "crear"; js "movimiento"; js "actividad";
   js "proyecto"; js "manipular"; js "jugar"; js "actuar"].

(** An object literal with string keys: its properties in insertion order,
    which is the order of [Object.keys] and [Object.values]. *)
Definition object (V : Type) := list (jsstring * V).

Fixpoint eqb (a b : jsstring) : bool :=
  match a, b with
  | [], [] => true
  | x :: a', y :: b' => (x =? y) && eqb a' b'
  | _, _ => false
  end.

(** [o[key]] for a key that is a property of [o]; [missing] stands for the
    [undefined] of an absent key. *)
Fixpoint prop {V} (missing : V) (o : object V) (key : jsstring) : V :=
  match o with
  | [] => missing
  | (k, v) :: o' => if eqb k key then v else prop missing o' key
  end.

(** [keys.reduce(f)] without an initial value; [None] on the empty array,
    where the source would raise a [TypeError]. *)
Definition reduce1 {A} (f : A -> A -> A) (l : list A) : option A :=
  match l with
  | [] => None
  | x :: l' => Some (foldl f x l')
  end.

(** The [scores] object of [detectLearningStyle]. *)
Definition styleScores (text : jsstring) : object nat :=
  let visualScore := countIndicators text visualIndicators in
  let auditoryScore := countIndicators text auditoryIndicators in
  let readingScore := countIndicators text readingIndicators in
  let kinestheticScore := countIndicators text kinestheticIndicators in
  [ (js "visual", visualScore); (js "auditory", auditoryScore);
    (js "reading", readingScore); (js "kinesthetic", kinestheticScore) ].

(** [Object.keys(scores).reduce((a, b) => scores[a] > scores[b] ? a : b)]. *)
Definition dominantStyle (scores : object nat) : option jsstring :=
  reduce1 (fun a b => if (prop 0 scores b <? prop 0 scores a)%nat then a else b)
          (map fst scores).

(** [Math.max(...Object.values(scores))] for counts. *)
Definition maxScore (scores : object nat) : nat :=
  foldl Nat.max 0%nat (map snd scores).

(** [detectLearningStyle(message, context)], the second method of that name
    in the class (the first, at line 495, is replaced by it).  [None] is the
    [null] of the source; [context] is not read. *)
Definition detectLearningStyle (message : jsstring) : option jsstring :=
  let text := toLowerCase message in
  let scores := styleScores text in
  let dominantStyle := dominantStyle scores in
  let maxScore := maxScore scores in
  if (2 <=? maxScore)%nat then dominantStyle else None.

(** *** The router (lines 12-129)

    Exceptions are [Error] objects carrying a message.  A computation runs
    on a state and ends either by returning a value or by throwing; the
    state reached at a [throw] is kept, as the assignments made before it
    remain in effect in the source. *)

Record Error := { message : jsstring }.

Inductive outcome (A : Type) :=
| Return (a : A)
| Throw (e : Error).
Arguments Return {A} a.
Arguments Throw {A} e.

Definition M (S A : Type) : Type := S -> S * outcome A.

Definition ret {S A} (a : A) : M S A := fun s => (s, Return a).
Definition throw {S A} (e : Error) : M S A := fun s => (s, Throw e).
Definition bind {S A B} (c : M S A) (k : A -> M S B) : M S B :=
  fun s => match c s with
           | (s', Return a) => k a s'
           | (s', Throw e) => (s', Throw e)
           end.
Definition tryCatch {S A} (body : M S A) (handler : Error -> M S A) : M S A :=
  fun s => match body s with
           | (s', Return a) => (s', Return a)
           | (s', Throw e) => handler e s'
           end.
Definition gets {S A} (f : S -> A) : M S A := fun s => (s, Return (f s)).
Definition modify {S} (f : S -> S) : M S unit := fun s => (f s, Return tt).

Notation "'let*' x := c 'in' k" := (bind c (fun x => k))
  (at level 10, x name, c at level 100, k at level 200).
Notation "c ;;; k" := (bind c (fun _ => k))
  (at level 100, k at level 200, right associativity).

Section Router.

(** What the router carries without looking inside. *)
Variables Config Context Content Response World : Type.

Record Agent := {
  agent_id : jsstring;
  config : Config;
  agent_status : jsstring;
  lastActivity : N }.

Record Metadata := {
  meta_from : jsstring;
  meta_sessionId : jsstring;
  meta_timestamp : N }.

Record Payload := {
  payload_message : Content;
  payload_context : option Context;
  metadata : Metadata }.

Record MessageObj := {
  id : jsstring;
  from : jsstring;
  to : jsstring;
  sessionId : jsstring;
  content : Content;
  timestamp : N;
  status : jsstring;
  response : option Response;
  error : option jsstring }.

Record Result := {
  success : bool;
  messageId : jsstring;
  result_response : option Response;
  result_error : option jsstring }.

(** The state a call of [processMessage] works on: the maps of the [MCP]
    instance, the object [messageObj] refers to, the clock read by
    [Date.now()], and whatever else the role handlers act on. *)
Record State := {
  contexts : gmap jsstring Context;
  agents : gmap jsstring Agent;
  messageObj : MessageObj;
  now : N;
  world : World }.

(** The four role handlers, [handleStudentAgent] ... [handleAnalysisAgent]:
    any computation on the outside world that returns a response or
    throws. *)
Record Handlers := {
  handleStudentAgent : Payload -> World -> World * outcome Response;
  handleTeacherAgent : Payload -> World -> World * outcome Response;
  handleA2AAgent : Payload -> World -> World * outcome Response;
  handleAnalysisAgent : Payload -> World -> World * outcome Response }.

Variable handlers : Handlers.

Definition setMessage (f : MessageObj -> MessageObj) : M State unit :=
  modify (fun s => {| contexts := contexts s; agents := agents s;
                      messageObj := f (messageObj s); now := now s;
                      world := world s |}).

Definition setStatus (v : jsstring) : MessageObj -> MessageObj :=
  fun m => {| id := id m; from := from m; to := to m;
              sessionId := sessionId m; content := content m;
              timestamp := timestamp m; status := v;
              response := response m; error := error m |}.

Definition setResponse (v : Response) : MessageObj -> MessageObj :=
  fun m => {| id := id m; from := from m; to := to m;
              sessionId := sessionId m; content := content m;
              timestamp := timestamp m; status := status m;
              response := Some v; error := error m |}.

Definition setError (v : jsstring) : MessageObj -> MessageObj :=
  fun m => {| id := id m; from := from m; to := to m;
              sessionId := sessionId m; content := content m;
              timestamp := timestamp m; status := status m;
              response := response m; error := Some v |}.

(** [agent.lastActivity = Date.now()] on the agent registered as [agentId]. *)
Definition touchAgent (agentId : jsstring) : M State unit :=
  modify (fun s =>
    {| contexts := contexts s;
       agents := alter (fun a => {| agent_id := agent_id a; config := config a;
                                    agent_status := agent_status a;
                                    lastActivity := now s |})
                       agentId (agents s);
       messageObj := messageObj s; now := now s; world := world s |}).

(** A role handler run on the outside world. *)
Definition invoke (h : Payload -> World -> World * outcome Response)
    (payload : Payload) : M State Response :=
  fun s =>
    let '(w, r) := h payload (world s) in
    ({| contexts := contexts s; agents := agents s;
        messageObj := messageObj s; now := now s; world := w |}, r).

(** [registerAgent(agentId, agentConfig)] (lines 12-20). *)
Definition registerAgent (agentId : jsstring) (agentConfig : Config)
  : M State unit :=
  modify (fun s =>
    {| contexts := contexts s;
       agents := <[agentId := {| agent_id := agentId; config := agentConfig;
                                 agent_status := js "active";
                                 lastActivity := now s |}]> (agents s);
       messageObj := messageObj s; now := now s; world := world s |}).

(** [getContext(sessionId)]. *)
Definition getContext (sessionId : jsstring) : M State (option Context) :=
  gets (fun s => contexts s !! sessionId).

(** The [switch (agentId)] of [executeAgentAction]: the handler of the
    matching [case], [None] for [default]. *)
Definition dispatch (agentId : jsstring)
  : option (Payload -> World -> World * outcome Response) :=
  if eqb agentId (js "student-agent") then Some (handleStudentAgent handlers)
  else if eqb agentId (js "teacher-agent")
  then Some (handleTeacherAgent handlers)
  else if eqb agentId (js "a2a-agent") then Some (handleA2AAgent handlers)
  else if eqb agentId (js "analysis-agent")
  then Some (handleAnalysisAgent handlers)
  else None.

(** [executeAgentAction(agentId, payload)] (lines 107-129). *)
Definition executeAgentAction (agentId : jsstring) (payload : Payload)
  : M State Response :=
  let* agent := gets (fun s => agents s !! agentId) in
  match agent with
  | None => throw {| message := js "Agent " ++ agentId ++ js " not found" |}
  | Some _ =>
      touchAgent agentId ;;;
      match dispatch agentId with
      | Some handle => invoke handle payload
      | None => throw {| message := js "Unknown agent type: " ++ agentId |}
      end
  end.

(** [processMessage(messageObj)] (lines 59-104); the fields of the message
    are read from the object at the time the source reads them. *)
Definition processMessage : M State Result :=
  tryCatch
    (let* m := gets messageObj in
     let* targetAgent := gets (fun s => agents s !! to m) in
     match targetAgent with
     | None => throw {| message := js "Agent " ++ to m ++ js " not found" |}
     | Some _ =>
         setMessage (setStatus (js "processing")) ;;;
         let* context := getContext (sessionId m) in
         let payload :=
           {| payload_message := content m;
              payload_context := context;
              metadata := {| meta_from := from m;
                             meta_sessionId := sessionId m;
                             meta_timestamp := timestamp m |} |} in
         let* response := executeAgentAction (to m) payload in
         setMessage (setStatus (js "completed")) ;;;
         setMessage (setResponse response) ;;;
         let* m := gets messageObj in
         ret {| success := true; messageId := id m;
                result_response := Some response; result_error := None |}
     end)
    (fun error =>
       setMessage (setStatus (js "failed")) ;;;
       setMessage (setError (message error)) ;;;
       let* m := gets messageObj in
       ret {| success := false; messageId := id m;
              result_response := None;
              result_error := Some (message error) |}).

End Router.

Arguments agent_id {Config} a.
Arguments config {Config} a.
Arguments agent_status {Config} a.
Arguments lastActivity {Config} a.
Arguments payload_message {Context Content} p.
Arguments payload_context {Context Content} p.
Arguments metadata {Context Content} p.
Arguments id {Content Response} m.
Arguments from {Content Response} m.
Arguments to {Content Response} m.
Arguments sessionId {Content Response} m.
Arguments content {Content Response} m.
Arguments timestamp {Content Response} m.
Arguments status {Content Response} m.
Arguments response {Content Response} m.
Arguments error {Content Response} m.
Arguments success {Response} r.
Arguments messageId {Response} r.
Arguments result_response {Response} r.
Arguments result_error {Response} r.
Arguments contexts {Config Context Content Response World} s.
Arguments agents {Config Context Content Response World} s.
Arguments messageObj {Config Context Content Response World} s.
Arguments now {Config Context Content Response World} s.
Arguments world {Config Context Content Response World} s.
Arguments handleStudentAgent {Context Content Response World} h.
Arguments handleTeacherAgent {Context Content Response World} h.
Arguments handleA2AAgent {Context Content Response World} h.
Arguments handleAnalysisAgent {Context Content Response World} h.
Arguments setMessage {Config Context Content Response World} f.
Arguments setStatus {Content Response} v.
Arguments setResponse {Content Response} v.
Arguments setError {Content Response} v.
Arguments touchAgent {Config Context Content Response World} agentId.
Arguments invoke {Config Context Content Response World} h payload.
Arguments registerAgent {Config Context Content Response World}
  agentId agentConfig.
Arguments getContext {Config Context Content Response World} sessionId.
Arguments dispatch {Context Content Response World} handlers agentId.
Arguments executeAgentAction {Config Context Content Response World}
  handlers agentId payload.
Arguments processMessage {Config Context Content Response World} handlers.

End MCP.

(** ** Vocabulary of the properties *)

Module Spec.
Import JS Num A2AAgent.
Local Open Scope Q_scope.

(** A score of the unit interval. *)
Definition inUnit (x : Q) : Prop := between 0 1 x.

(** The six dimensions [performArgumentAnalysis] assembles for [text] when
    its calls of [this.assessSourceDependency(text)] return
    [sourceDependency] (see [performArgumentAnalysis_given]). *)
Definition dimensionsGiven (sourceDependency : Q) (text : jsstring)
  : Dimensions.t :=
  let evidenceIndicators := extractEvidenceIndicators text in
  Dimensions.mk
    (analyzeStructure text)
    (analyzeContent text)
    (analyzeReasoning text)
    (Evidence.mk
       (EvidenceIndicators.count evidenceIndicators)
       (EvidenceIndicators.types evidenceIndicators)
       (assessEvidenceQuality text)
       sourceDependency
       (assessEvidenceRelevance text))
    (analyzeCriticalThinking text)
    (Originality.mk
       sourceDependency
       (detectPersonalInsights text)
       (detectCreativeElements text)
       (originalityFormula sourceDependency (detectPersonalInsights text)
                           (detectCreativeElements text))).

(** The mean of the six per-dimension scores of an overall summary: what
    the design document takes [overall.total] to be. *)
Definition meanOfDimensions (o : Overall.t) : Q :=
  (Overall.structure o + Overall.content o + Overall.reasoning o
   + Overall.evidence o + Overall.criticalThinking o + Overall.originality o)
  / 6.

(** A history whose entries carry the overall summary the scorer computes. *)
Definition scoredHistory (history : list HistoryEntry.t) : Prop :=
  Forall (fun entry =>
            Analysis.overall (HistoryEntry.analysis entry)
            = calculateOverallScores
                (Analysis.dimensions (HistoryEntry.analysis entry)))
         history.

(** A history entry with a given [overall.total]. *)
Definition totals (history : list HistoryEntry.t) : list Q :=
  map (fun entry => Overall.total (Analysis.overall
                                     (HistoryEntry.analysis entry)))
      history.

(** The normalized sub-scores of the six dimensions, without the two
    [sourceDependency] fields. *)
Definition normalizedScores (d : Dimensions.t) : list Q :=
  [ Structure.coherence (Dimensions.structure d);
    Structure.organization (Dimensions.structure d);
    Content.thesisClarity (Dimensions.content d);
    Content.topicRelevance (Dimensions.content d);
    Content.depth (Dimensions.content d);
    Content.breadth (Dimensions.content d);
    Reasoning.argumentFlow (Dimensions.reasoning d);
    Reasoning.consistency (Dimensions.reasoning d);
    Reasoning.reasoningQuality (Dimensions.reasoning d);
    Evidence.evidenceQuality (Dimensions.evidence d);
    Evidence.evidenceRelevance (Dimensions.evidence d);
    CriticalThinking.overallLevel (Dimensions.criticalThinking d);
    Originality.originalityScore (Dimensions.originality d) ].

(** The count metrics of the six dimensions. *)
Definition countMetrics (d : Dimensions.t) : list nat :=
  [ Structure.sentenceCount (Dimensions.structure d);
    Reasoning.logicalConnections (Dimensions.reasoning d);
    Reasoning.fallacies (Dimensions.reasoning d);
    Evidence.evidenceCount (Dimensions.evidence d);
    CriticalThinking.questioning (Dimensions.criticalThinking d);
    CriticalThinking.analysis (Dimensions.criticalThinking d);
    CriticalThinking.evaluation (Dimensions.criticalThinking d);
    CriticalThinking.synthesis (Dimensions.criticalThinking d);
    CriticalThinking.metacognition (Dimensions.criticalThinking d);
    Originality.personalInsights (Dimensions.originality d);
    Originality.creativeElements (Dimensions.originality d) ].

Definition overallScores (o : Overall.t) : list Q :=
  [ Overall.structure o; Overall.content o; Overall.reasoning o;
    Overall.evidence o; Overall.criticalThinking o; Overall.originality o;
    Overall.total o ].

(** The [type] tags [identifyWeaknesses] can give a weakness. *)
Definition weaknessTypes : list jsstring :=
  [js "thesis_weak"; js "evidence_lacking"; js "source_dependency";
   js "reasoning_weak"; js "critical_thinking_low"].

(** The area labels of the weaknesses, and of the strengths, of an
    analysis. *)
Definition weakAreas (d : Dimensions.t) : list jsstring :=
  map Weakness.area (identifyWeaknesses d).
Definition strongAreas (d : Dimensions.t) : list jsstring :=
  map Strength.area (identifyStrengths d).

(** The first, and the last, property of [scores] in iteration order whose
    value is the maximum. *)
Definition firstMaximal (scores : MCP.object nat) : option jsstring :=
  fst <$> List.find (fun kv => (snd kv =? MCP.maxScore scores)%nat) scores.
Definition lastMaximal (scores : MCP.object nat) : option jsstring :=
  fst <$> List.find (fun kv => (snd kv =? MCP.maxScore scores)%nat)
                    (rev scores).

(** A text with four source indicators and eight creative ones. *)
Definition dependentButOriginal : jsstring :=
  js "según según según según crear crear crear crear crear crear crear crear".

(** A message with three visual and three auditory keywords, and one with
    a single visual keyword. *)
Definition tiedMessage : jsstring :=
  js "imagen imagen imagen sonido sonido sonido".
Definition faintMessage : jsstring := js "veo".

(** The scores that are computed from indicator counts, with the
    indicator phrases each one adds to its count and those it subtracts:
    the sub-scores of the six dimensions that read an indicator list, and
    the overall values that average them.  The originality score is taken
    for a given value of the source dependency ([OriginalityScore]) and
    for the count-based value of the first definition of
    [assessSourceDependency] ([OriginalityCounted]); [SourceDependency] is
    that count-based value itself. *)
Inductive Category :=
| Coherence | Organization | Depth | Breadth | ArgumentFlow
| ReasoningQuality | EvidenceQuality | CriticalThinkingLevel
| ThesisClarity
| SourceDependency
| OriginalityScore (sourceDependency : Q)
| OriginalityCounted
| OverallStructure | OverallContent | OverallEvidence.

Definition categoryScore (c : Category) (text : jsstring) : Q :=
  match c with
  | Coherence => assessCoherence text
  | Organization => assessOrganization text
  | Depth => assessDepth text
  | Breadth => assessBreadth text
  | ArgumentFlow => assessArgumentFlow text
  | ReasoningQuality => assessReasoningQuality text
  | EvidenceQuality => assessEvidenceQuality text
  | CriticalThinkingLevel => calculateCriticalThinkingLevel text
  | ThesisClarity => assessThesisClarity text
  | SourceDependency => assessSourceDependency_counting text
  | OriginalityScore sourceDependency =>
      originalityFormula sourceDependency (detectPersonalInsights text)
                         (detectCreativeElements text)
  | OriginalityCounted =>
      originalityFormula (assessSourceDependency_counting text)
                         (detectPersonalInsights text)
                         (detectCreativeElements text)
  | OverallStructure =>
      Overall.structure (calculateOverallScores (dimensionsGiven 0 text))
  | OverallContent =>
      Overall.content (calculateOverallScores (dimensionsGiven 0 text))
  | OverallEvidence =>
      Overall.evidence (calculateOverallScores (dimensionsGiven 0 text))
  end.

Definition countedFor (c : Category) : list jsstring :=
  match c with
  | Coherence => coherenceIndicators
  | Organization => structureIndicators
  | Depth => depthIndicators
  | Breadth => breadthIndicators
  | ArgumentFlow => connectionIndicators
  | ReasoningQuality => connectionIndicators
  | EvidenceQuality => concat (map snd evidenceTypes)
  | CriticalThinkingLevel =>
      questionIndicators ++ analysisIndicators ++ evaluationIndicators
      ++ synthesisIndicators ++ metacognitionIndicators
  | ThesisClarity => thesisIndicators
  | SourceDependency => sourceIndicators
  | OriginalityScore _ => personalIndicators ++ creativeIndicators
  | OriginalityCounted => personalIndicators ++ creativeIndicators
  | OverallStructure => coherenceIndicators ++ structureIndicators
  | OverallContent =>
      thesisIndicators ++ depthIndicators ++ breadthIndicators
  | OverallEvidence => concat (map snd evidenceTypes)
  end.

Definition countedAgainst (c : Category) : list jsstring :=
  match c with
  | ReasoningQuality => fallacyIndicators
  | OriginalityScore _ => sourceIndicators
  | OriginalityCounted => sourceIndicators
  | _ => []
  end.

Definition indicatorsOf (c : Category) : list jsstring :=
  countedFor c ++ countedAgainst c.

(** [t2] has strictly more occurrences of the phrase [p] than [t1], and as
    many of every other indicator phrase of the category. *)
Definition moreOccurrences (c : Category) (p t1 t2 : jsstring) : Prop :=
  (occurrences t1 p < occurrences t2 p)%nat
  /\ forall q, In q (indicatorsOf c) -> q <> p ->
               occurrences t1 q = occurrences t2 q.

(** The payload [processMessage] hands to [executeAgentAction] in state [s]. *)
Definition payloadOf {Config Context Content Response World : Type}
    (s : MCP.State Config Context Content Response World)
  : MCP.Payload Context Content :=
  let m := MCP.messageObj s in
  {| MCP.payload_message := MCP.content m;
     MCP.payload_context := MCP.contexts s !! MCP.sessionId m;
     MCP.metadata := {| MCP.meta_from := MCP.from m;
                        MCP.meta_sessionId := MCP.sessionId m;
                        MCP.meta_timestamp := MCP.timestamp m |} |}.

(** A router whose outside world is the number of handler runs so far, and
    whose student handler fails. *)
Definition failingHandlers : MCP.Handlers unit jsstring jsstring nat :=
  {| MCP.handleStudentAgent :=
       fun _ runs => (S runs, MCP.Throw {| MCP.message := js "boom" |});
     MCP.handleTeacherAgent :=
       fun payload runs => (S runs, MCP.Return (MCP.payload_message payload));
     MCP.handleA2AAgent :=
       fun payload runs => (S runs, MCP.Return (MCP.payload_message payload));
     MCP.handleAnalysisAgent :=
       fun payload runs => (S runs, MCP.Return (MCP.payload_message payload)) |}.

Definition studentAgent : MCP.Agent unit :=
  {| MCP.agent_id := js "student-agent"; MCP.config := tt;
     MCP.agent_status := js "active"; MCP.lastActivity := 0%N |}.

(** A pending message for [target] in a router where only the student
    agent is registered. *)
Definition pendingFor (target : jsstring)
  : MCP.State unit unit jsstring jsstring nat :=
  {| MCP.contexts := ∅;
     MCP.agents := {[ js "student-agent" := studentAgent ]};
     MCP.messageObj :=
       {| MCP.id := js "msg_1_abc"; MCP.from := js "system";
          MCP.to := target; MCP.sessionId := js "default";
          MCP.content := js "hola"; MCP.timestamp := 1%N;
          MCP.status := js "pending"; MCP.response := None;
          MCP.error := None |};
     MCP.now := 2%N;
     MCP.world := 0%nat |}.

End Spec.

(** ** class A2AAgent: feedback, challenges, recommendations (lines 51-82,
    175-223, 277-317) *)

Module A2AOutput.
Import JS Num A2AAgent.
Local Open Scope Q_scope.

(** [generatePersonalizedFeedback(analysis, context)]; [context] is not
    read. *)
Definition generatePersonalizedFeedback (analysis : Dimensions.t)
  : list FeedbackItem.t :=
  let feedback := [] in
  let weaknesses := identifyWeaknesses analysis in
  let feedback :=
    foldl (fun feedback weakness =>
             match feedbackTemplates !! Weakness.type weakness with
             | Some template =>
                 feedback ++
                 [FeedbackItem.mk
                    (Weakness.type weakness)
                    (FeedbackTemplate.message template)
                    (FeedbackTemplate.suggestion template)
                    (FeedbackTemplate.priority template)
                    (Weakness.area weakness)
                    (Weakness.score weakness)]
             | None => feedback
             end)
          feedback weaknesses in
  let strengths := identifyStrengths analysis in
  foldl (fun feedback strength =>
           feedback ++
           [FeedbackItem.mk
              (js "strength")
              (js "Excelente trabajo en " ++ Strength.area strength
               ++ js ". " ++ Strength.message strength)
              (js "Continúa desarrollando esta fortaleza")
              (js "low")
              (Strength.area strength)
              (Strength.score strength)])
        feedback strengths.

(** [generateMicroChallenges(analysis, context)].  [clock i] is what
    [Date.now()] and the random suffix read as for the weakness at index
    [i]. *)
Definition generateMicroChallenges (clock : nat -> jsstring * jsstring)
    (analysis : Dimensions.t) : list MicroChallenge.t :=
  let weaknesses := identifyWeaknesses analysis in
  foldl (fun challenges '(i, weakness) =>
           match createMicroChallenge (fst (clock i)) (snd (clock i)) weakness
           with
           | Some challenge => challenges ++ [challenge]
           | None => challenges
           end)
        [] (imap (fun i weakness => (i, weakness)) weaknesses).

Module Recommendation.
Record t := mk {
  area : jsstring;
  action : jsstring;
  priority : jsstring }.
End Recommendation.

(** [generateRecommendations(analysis)] (lines 277-317). *)
Definition generateRecommendations (analysis : Dimensions.t)
  : list Recommendation.t :=
  let recommendations := [] in
  let recommendations :=
    pushIf (ltb (Structure.coherence (Dimensions.structure analysis)) 0.6)
      (Recommendation.mk (js "Estructura")
         (js "Usa un esquema antes de escribir para organizar tus ideas")
         (js "high")) recommendations in
  let recommendations :=
    pushIf (ltb (Content.thesisClarity (Dimensions.content analysis)) 0.6)
      (Recommendation.mk (js "Contenido")
         (js "Define claramente tu tesis principal al inicio")
         (js "high")) recommendations in
  let recommendations :=
    pushIf (ltb (Reasoning.reasoningQuality (Dimensions.reasoning analysis))
                0.6)
      (Recommendation.mk (js "Razonamiento")
         (js "Practica conectar ideas usando conectores lógicos")
         (js "medium")) recommendations in
  let recommendations :=
    pushIf (Evidence.evidenceCount (Dimensions.evidence analysis) <? 2)%nat
      (Recommendation.mk (js "Evidencia")
         (js "Incluye más ejemplos específicos y datos relevantes")
         (js "medium")) recommendations in
  recommendations.

Module ArgumentResult.
Record t := mk {
  analysis : Analysis.t;
  feedback : list FeedbackItem.t;
  microChallenges : list MicroChallenge.t;
  recommendations : list Recommendation.t;
  progress : Progress.t }.
End ArgumentResult.

(** [analyzeArgument(studentText, context)] (lines 51-82) on the history
    map of the agent: the new history, and the result when there is one.
    The [catch] block logs and throws the error again, so a call that gets
    no analysis gives no result; it has not reached [storeAnalysis]. *)
Definition analyzeArgument (fuel : nat)
    (analysisHistory : gmap jsstring (list HistoryEntry.t)) (now : N)
    (clock : nat -> jsstring * jsstring) (sessionId studentText : jsstring)
  : gmap jsstring (list HistoryEntry.t) * option ArgumentResult.t :=
  match performArgumentAnalysis fuel studentText with
  | None => (analysisHistory, None)
  | Some analysis =>
      let feedback :=
        generatePersonalizedFeedback (Analysis.dimensions analysis) in
      let microChallenges :=
        generateMicroChallenges clock (Analysis.dimensions analysis) in
      let analysisHistory :=
        storeAnalysis analysisHistory now sessionId analysis feedback in
      (analysisHistory,
       Some (ArgumentResult.mk analysis feedback microChallenges
               (generateRecommendations (Analysis.dimensions analysis))
               (calculateProgress analysisHistory sessionId)))
  end.

End A2AOutput.

(** ** class MCP: argument heuristics, adaptations, contexts, sending
    (lines 22-56, 214-258, 298-364, 388-521, 742-868) *)

Module MCPServices.
Import JS Num.
Local Open Scope Q_scope.

(** The helpers count with the expression of the argument agent,
    [text.toLowerCase().split(indicator).length - 1] summed by [reduce]:
    [A2AAgent.countIn]. *)

(** [detectThesis(text)] (lines 389-396): no lower-casing here. *)
Definition detectThesis (text : jsstring) : bool :=
  includes text (js "creo que") || includes text (js "mi opinión")
  || includes text (js "considero").

Definition evidenceIndicators : list jsstring :=
  [js "porque"; js "debido a"; js "según"; js "datos"; js "estadísticas";
   js "ejemplo"].

Definition countEvidence (text : jsstring) : nat :=
  A2AAgent.countIn evidenceIndicators text.

Definition reasoningIndicators : list jsstring :=
  [js "por lo tanto"; js "en consecuencia"; js "esto demuestra";
   js "se puede concluir"].

Definition assessReasoning (text : jsstring) : Q :=
  let reasoningCount := A2AAgent.countIn reasoningIndicators text in
  Qmin (ofCount reasoningCount / 3) 1.

Definition sourceIndicators : list jsstring :=
  [js "según"; js "fuente"; js "referencia"; js "cita"; js "dice que"].

Definition assessSourceDependency (text : jsstring) : Q :=
  let sourceCount := A2AAgent.countIn sourceIndicators text in
  Qmin (ofCount sourceCount / 5) 1.

Definition criticalIndicators : list jsstring :=
  [js "analizar"; js "evaluar"; js "comparar"; js "contrastar";
   js "cuestionar"; js "reflexionar"].

Definition assessCriticalThinking (text : jsstring) : Q :=
  let criticalCount := A2AAgent.countIn criticalIndicators text in
  Qmin (ofCount criticalCount / 4) 1.

Module StudentAnalysis.
Record t := mk {
  hasThesis : bool;
  evidenceCount : nat;
  reasoningQuality : Q;
  sourceDependency : Q;
  criticalThinkingLevel : Q }.
End StudentAnalysis.

(** [analyzeStudentArgument(text)] (lines 215-224). *)
Definition analyzeStudentArgument (text : jsstring) : StudentAnalysis.t :=
  StudentAnalysis.mk
    (detectThesis text)
    (countEvidence text)
    (assessReasoning text)
    (assessSourceDependency text)
    (assessCriticalThinking text).

Module Suggestion.
Record t := mk {
  type : jsstring;
  message : jsstring;
  priority : jsstring }.
End Suggestion.

(** [generateStudentSuggestions(analysis)] (lines 227-258). *)
Definition generateStudentSuggestions (analysis : StudentAnalysis.t)
  : list Suggestion.t :=
  let suggestions := [] in
  let suggestions :=
    A2AAgent.pushIf (negb (StudentAnalysis.hasThesis analysis))
      (Suggestion.mk (js "thesis")
         (js "Tu respuesta necesita una tesis clara. ¿Cuál es tu posición principal sobre el tema?")
         (js "high")) suggestions in
  let suggestions :=
    A2AAgent.pushIf (StudentAnalysis.evidenceCount analysis <? 2)%nat
      (Suggestion.mk (js "evidence")
         (js "Necesitas más evidencia para respaldar tu argumento. ¿Qué datos o ejemplos puedes usar?")
         (js "medium")) suggestions in
  let suggestions :=
    A2AAgent.pushIf (gtb (StudentAnalysis.sourceDependency analysis) 0.7)
      (Suggestion.mk (js "originality")
         (js "Tu respuesta depende mucho de fuentes externas. ¿Cómo puedes desarrollar tu propio análisis?")
         (js "high")) suggestions in
  suggestions.

(** *** Argument structure for the a2a role (lines 298-364, 459-485) *)

Definition detectIntroduction (text : jsstring) : bool := (0 <? length text)%nat.
Definition detectBody (text : jsstring) : bool := (50 <? length text)%nat.
Definition detectConclusion (text : jsstring) : bool :=
  (100 <? length text)%nat.
Definition assessCoherence (text : jsstring) : Q := 0.7.
Definition assessLogic (text : jsstring) : Q := 0.6.
Definition assessEvidence (text : jsstring) : Q :=
  ofCount (countEvidence text) / 5.
Definition assessOriginality (text : jsstring) : Q :=
  1 - assessSourceDependency text.

(** An entry of [analysis.weaknesses], as [generateRecommendations] reads
    it. *)
Module Finding.
Record t := mk {
  type : jsstring;
  suggestion : jsstring;
  severity : jsstring }.
End Finding.

Definition identifyWeaknesses (text : jsstring) : list Finding.t := [].
Definition identifyStrengths (text : jsstring) : list Finding.t := [].

Module Quality.
Record t := mk {
  coherence : Q;
  logic : Q;
  evidence : Q;
  originality : Q }.
End Quality.

Module ArgumentStructure.
Record t := mk {
  introduction : bool;
  body : bool;
  conclusion : bool;
  quality : Quality.t;
  weaknesses : list Finding.t;
  strengths : list Finding.t }.
End ArgumentStructure.

Definition analyzeArgumentStructure (text : jsstring) : ArgumentStructure.t :=
  ArgumentStructure.mk
    (detectIntroduction text) (detectBody text) (detectConclusion text)
    (Quality.mk (assessCoherence text) (assessLogic text)
                (assessEvidence text) (assessOriginality text))
    (identifyWeaknesses text)
    (identifyStrengths text).

Module Feedback.
Record t := mk {
  type : jsstring;
  message : jsstring;
  suggestion : jsstring }.
End Feedback.

(** [generateCriticalThinkingFeedback(analysis)] (lines 318-348). *)
Definition generateCriticalThinkingFeedback (analysis : ArgumentStructure.t)
  : list Feedback.t :=
  let quality := ArgumentStructure.quality analysis in
  let feedback := [] in
  let feedback :=
    A2AAgent.pushIf (ltb (Quality.coherence quality) 0.6)
      (Feedback.mk (js "coherence")
         (js "Tu argumento necesita mejor organización. Considera usar un esquema antes de escribir.")
         (js "Crea un mapa conceptual con tus ideas principales")) feedback in
  let feedback :=
    A2AAgent.pushIf (ltb (Quality.logic quality) 0.6)
      (Feedback.mk (js "logic")
         (js "Hay inconsistencias en tu razonamiento. Revisa las conexiones entre tus ideas.")
         (js "Usa conectores lógicos para unir tus argumentos")) feedback in
  let feedback :=
    A2AAgent.pushIf (ltb (Quality.evidence quality) 0.6)
      (Feedback.mk (js "evidence")
         (js "Necesitas más evidencia para respaldar tus afirmaciones.")
         (js "Incluye datos, ejemplos o referencias específicas")) feedback in
  feedback.

Module Advice.
Record t := mk {
  area : jsstring;
  action : jsstring;
  priority : jsstring }.
End Advice.

(** [generateRecommendations(analysis)] (lines 351-364). *)
Definition generateRecommendations (analysis : ArgumentStructure.t)
  : list Advice.t :=
  foldl (fun recommendations weakness =>
           recommendations ++
           [Advice.mk (Finding.type weakness) (Finding.suggestion weakness)
              (if MCP.eqb (Finding.severity weakness) (js "high")
               then js "urgent" else js "normal")])
        [] (ArgumentStructure.weaknesses analysis).

(** *** Adaptations (lines 742-868) *)

Module Bundle.
Record t := mk {
  actividades : list jsstring;
  recursos : list jsstring }.
End Bundle.

(** The table [adaptationsByStyle] for the activity title [baseActivity]. *)
Definition adaptationsByStyle (baseActivity : jsstring)
  : gmap jsstring Bundle.t :=
  list_to_map
    [ (js "visual",
       Bundle.mk
         [ js "Crear un mapa conceptual sobre " ++ baseActivity;
           js "Diseñar infografías que representen los argumentos principales";
           js "Usar diagramas de flujo para organizar ideas";
           js "Crear una presentación visual con imágenes y gráficos" ]
         [ js "Herramientas de diseño gráfico";
           js "Plantillas de mapas conceptuales";
           js "Biblioteca de imágenes educativas";
           js "Software de presentaciones" ]);
      (js "auditory",
       Bundle.mk
         [ js "Participar en un debate oral sobre " ++ baseActivity;
           js "Grabar un podcast explicando los argumentos";
           js "Realizar una exposición oral con argumentos";
           js "Participar en discusiones grupales estructuradas" ]
         [ js "Grabadora de audio";
           js "Plantillas de debate";
           js "Biblioteca de podcasts educativos";
           js "Guías de expresión oral" ]);
      (js "reading",
       Bundle.mk
         [ js "Redactar un ensayo estructurado sobre " ++ baseActivity;
           js "Crear un resumen escrito de los argumentos";
           js "Elaborar fichas de lectura con citas";
           js "Escribir un análisis crítico por escrito" ]
         [ js "Plantillas de ensayo";
           js "Guías de escritura académica";
           js "Biblioteca de textos de referencia";
           js "Herramientas de citación" ]);
      (js "kinesthetic",
       Bundle.mk
         [ js "Crear un proyecto práctico sobre " ++ baseActivity;
           js "Realizar experimentos que demuestren los argumentos";
           js "Construir modelos físicos de los conceptos";
           js "Participar en actividades de role-play" ]
         [ js "Materiales de construcción";
           js "Kits de experimentos";
           js "Herramientas de modelado";
           js "Espacios de trabajo colaborativo" ]) ].

(** [x || fallback] for a string that may be missing: the empty string and
    [undefined] are falsy. *)
Definition orElse (x : option jsstring) (fallback : jsstring) : jsstring :=
  match x with
  | Some (c :: s) => c :: s
  | _ => fallback
  end.

(** [generateStyleSpecificAdaptations(style, activity, confidence)]; [title]
    is [activity.title], and [confidence] is not read. *)
Definition generateStyleSpecificAdaptations (style : jsstring)
    (title : option jsstring) : Bundle.t :=
  let baseActivity := orElse title (js "Actividad de pensamiento crítico") in
  match adaptationsByStyle baseActivity !! style with
  | Some bundle => bundle
  | None =>
      default (Bundle.mk [] [])
              (adaptationsByStyle baseActivity !! js "reading")
  end.

Definition complementaryMap : gmap jsstring (list jsstring) :=
  list_to_map
    [ (js "visual", [js "reading"; js "kinesthetic"]);
      (js "auditory", [js "visual"; js "kinesthetic"]);
      (js "reading", [js "visual"; js "auditory"]);
      (js "kinesthetic", [js "visual"; js "auditory"]) ].

(** [getComplementaryStyles(primaryStyle)] (lines 846-855). *)
Definition getComplementaryStyles (primaryStyle : jsstring) : list jsstring :=
  default [js "visual"; js "auditory"] (complementaryMap !! primaryStyle).

(** [generateDefaultAdaptations()] (lines 857-868): the object, in the
    order of its keys. *)
Definition generateDefaultAdaptations : MCP.object Bundle.t :=
  [ (js "visual", generateStyleSpecificAdaptations (js "visual") None);
    (js "auditory", generateStyleSpecificAdaptations (js "auditory") None);
    (js "reading", generateStyleSpecificAdaptations (js "reading") None);
    (js "kinesthetic",
     generateStyleSpecificAdaptations (js "kinesthetic") None) ].

(** [o[key] = value] on an object: the value of a present key is replaced
    in place, a new key is added last. *)
Fixpoint setProp {V} (o : MCP.object V) (key : jsstring) (value : V)
  : MCP.object V :=
  match o with
  | [] => [(key, value)]
  | (k, v) :: o' =>
      if MCP.eqb k key then (k, value) :: o'
      else (k, v) :: setProp o' key value
  end.

(** What [getStudentLearningStyles] hands over: [estilo_detectado] and, when
    present, [confianza]. *)
Module LearningStyles.
Record t := mk {
  estilo_detectado : option jsstring;
  confianza : option Q }.
End LearningStyles.

(** [learningStyles.confianza || 0.5]: a missing value and 0 are falsy. *)
Definition confidenceOf (learningStyles : LearningStyles.t) : Q :=
  match LearningStyles.confianza learningStyles with
  | Some c => if Qeq_bool c 0 then 0.5 else c
  | None => 0.5
  end.

(** [generatePersonalizedAdaptations(activity, learningStyles, context)]
    (lines 742-779); [learningStyles = None] is [null], [title] is
    [activity.title]. *)
Definition generatePersonalizedAdaptations (title : option jsstring)
    (learningStyles : option LearningStyles.t) : MCP.object Bundle.t :=
  match learningStyles with
  | None => generateDefaultAdaptations
  | Some styles =>
      match LearningStyles.estilo_detectado styles with
      | None | Some [] => generateDefaultAdaptations
      | Some detectedStyle =>
          let confidence := confidenceOf styles in
          let adaptations :=
            [(detectedStyle,
              generateStyleSpecificAdaptations detectedStyle title)] in
          if ltb confidence 0.7
          then
            foldl (fun adaptations style =>
                     setProp adaptations style
                       (generateStyleSpecificAdaptations style title))
                  adaptations (getComplementaryStyles detectedStyle)
          else adaptations
      end
  end.

(** *** Session contexts (lines 22-34) *)

(** A stored context: the properties given by the caller, and the two the
    router writes over them. *)
Record StoredContext (Fields : Type) := {
  fields : Fields;
  lastUpdated : N;
  version : N }.
Arguments fields {Fields} s.
Arguments lastUpdated {Fields} s.
Arguments version {Fields} s.

(** [(this.contexts.get(sessionId)?.version || 0) + 1]. *)
Definition nextVersion {Fields} (old : option (StoredContext Fields)) : N :=
  (match old with
   | Some c => version c
   | None => 0
   end + 1)%N.

(** [setContext(sessionId, context)] at time [now]. *)
Definition setContext {Fields}
    (contexts : gmap jsstring (StoredContext Fields)) (now : N)
    (sessionId : jsstring) (context : Fields)
  : gmap jsstring (StoredContext Fields) :=
  <[sessionId := {| fields := context; lastUpdated := now;
                    version := nextVersion (contexts !! sessionId) |}]>
    contexts.

(** [getContext(sessionId)]. *)
Definition getContext {Fields}
    (contexts : gmap jsstring (StoredContext Fields)) (sessionId : jsstring)
  : option (StoredContext Fields) :=
  contexts !! sessionId.

(** *** Sending (lines 37-56) *)

Section Sending.
Variables Config Context Content Response World : Type.

(** The router between two calls: its maps, its message queue, the clock
    and the outside world. *)
Record Router := {
  r_contexts : gmap jsstring Context;
  r_agents : gmap jsstring (MCP.Agent Config);
  messageQueue : list (MCP.MessageObj Content Response);
  r_now : N;
  r_world : World }.

(** [sendMessage(fromAgentId, toAgentId, message, sessionId)].  [suffix] is
    the random suffix and [stamp] the text of [Date.now()] in the id.  The
    message object is pushed on the queue and then processed; the queue
    holds that same object, so it shows the object as [processMessage]
    leaves it. *)
Definition sendMessage
    (handlers : MCP.Handlers Context Content Response World)
    (stamp suffix : jsstring)
    (fromAgentId toAgentId : jsstring) (message : Content)
    (sessionId : jsstring) (router : Router)
  : Router * MCP.outcome (MCP.Result Response) :=
  let messageId := js "msg_" ++ stamp ++ js "_" ++ suffix in
  let messageObj :=
    {| MCP.id := messageId; MCP.from := fromAgentId; MCP.to := toAgentId;
       MCP.sessionId := sessionId; MCP.content := message;
       MCP.timestamp := r_now router; MCP.status := js "pending";
       MCP.response := None; MCP.error := None |} in
  let '(s, result) :=
    MCP.processMessage handlers
      {| MCP.contexts := r_contexts router; MCP.agents := r_agents router;
         MCP.messageObj := messageObj; MCP.now := r_now router;
         MCP.world := r_world router |} in
  ({| r_contexts := MCP.contexts s; r_agents := MCP.agents s;
      messageQueue := messageQueue router ++ [MCP.messageObj s];
      r_now := MCP.now s; r_world := MCP.world s |}, result).

End Sending.

Arguments r_contexts {Config Context Content Response World} r.
Arguments r_agents {Config Context Content Response World} r.
Arguments messageQueue {Config Context Content Response World} r.
Arguments r_now {Config Context Content Response World} r.
Arguments r_world {Config Context Content Response World} r.
Arguments sendMessage {Config Context Content Response World}
  handlers stamp suffix fromAgentId toAgentId message sessionId router.

End MCPServices.

(** ** Vocabulary of the further properties *)

Module Spec2.
Import JS Num A2AAgent.

(** The entries [calculateProgress] looks at: the last six. *)
Definition lastSix {A} (history : list A) : list A :=
  drop (length history - 6) history.

(** The four learning styles of the tables. *)
Definition knownStyles : list jsstring :=
  [js "visual"; js "auditory"; js "reading"; js "kinesthetic"].

(** [agent.lastActivity = Date.now()] on one agent record. *)
Definition touched {Config} (now : N) (agent : MCP.Agent Config)
  : MCP.Agent Config :=
  {| MCP.agent_id := MCP.agent_id agent; MCP.config := MCP.config agent;
     MCP.agent_status := MCP.agent_status agent;
     MCP.lastActivity := now |}.

End Spec2.

(** * Properties *)

(** ** Arithmetic of scores *)

Section Scores.
Import Num.
Local Open Scope Q_scope.

Lemma ltb_lt (x y : Q) : ltb x y = true <-> x < y.
Proof.
  unfold ltb. rewrite Qlt_alt.
  destruct (x ?= y); split; congruence.
Qed.

Lemma gtb_gt (x y : Q) : gtb x y = true <-> y < x.
Proof. apply ltb_lt. Qed.

Lemma ltb_ge (x y : Q) : ltb x y = false <-> y <= x.
Proof.
  destruct (ltb x y) eqn:E.
  - apply ltb_lt in E. split; [discriminate | lra].
  - split; [intros _ | reflexivity].
    destruct (Qlt_le_dec x y) as [H | H]; [ | exact H].
    apply ltb_lt in H. congruence.
Qed.

Lemma ofCount_nonneg (n : nat) : 0 <= ofCount n.
Proof.
  unfold ofCount. change 0 with (inject_Z 0).
  rewrite <- Zle_Qle. lia.
Qed.

Lemma ofCount_le (n m : nat) : (n <= m)%nat -> ofCount n <= ofCount m.
Proof. intros H. unfold ofCount. rewrite <- Zle_Qle. lia. Qed.

Lemma ofCount_lt (n m : nat) : (n < m)%nat -> ofCount n < ofCount m.
Proof. intros H. unfold ofCount. rewrite <- Zlt_Qlt. lia. Qed.

Lemma div_le (k x y : Q) : 0 < k -> x <= y -> x / k <= y / k.
Proof.
  intros Hk Hxy. unfold Qdiv.
  apply Qmult_le_compat_r; [exact Hxy | ].
  apply Qlt_le_weak, Qinv_lt_0_compat, Hk.
Qed.

Lemma div_nonneg (k x : Q) : 0 < k -> 0 <= x -> 0 <= x / k.
Proof.
  intros Hk Hx. apply Qle_shift_div_l; [exact Hk | lra].
Qed.

(** [Math.min(count / k, 1)] is a score of the unit interval. *)
Lemma clamp_between (k : Q) (n : nat) :
  0 < k -> between 0 1 (Qmin (ofCount n / k) 1).
Proof.
  intros Hk. pose proof (div_nonneg k _ Hk (ofCount_nonneg n)) as H0.
  unfold between.
  destruct (Q.min_spec (ofCount n / k) 1) as [[H E] | [H E]];
    rewrite E; lra.
Qed.

Lemma clamp_le (k : Q) (n m : nat) :
  0 < k -> (n <= m)%nat ->
  Qmin (ofCount n / k) 1 <= Qmin (ofCount m / k) 1.
Proof.
  intros Hk Hnm.
  pose proof (div_le k _ _ Hk (ofCount_le n m Hnm)) as H.
  apply Q.min_le_compat_r, H.
Qed.

(** [Math.max(0, Math.min(1, x))] is a score of the unit interval. *)
Lemma clip_between (x : Q) : between 0 1 (Qmax 0 (Qmin 1 x)).
Proof.
  unfold between.
  destruct (Q.max_spec 0 (Qmin 1 x)) as [[H E] | [H E]];
    destruct (Q.min_spec 1 x) as [[H' E'] | [H' E']];
    rewrite E; rewrite ?E' in *; lra.
Qed.

Lemma clip_le (x y : Q) : x <= y -> Qmax 0 (Qmin 1 x) <= Qmax 0 (Qmin 1 y).
Proof.
  intros H. apply Q.max_le_compat_l, Q.min_le_compat_l, H.
Qed.

Lemma half_between (x y : Q) :
  between 0 1 x -> between 0 1 y -> between 0 1 ((x + y) / 2).
Proof.
  unfold between. intros [? ?] [? ?]. split.
  - apply div_nonneg; lra.
  - apply Qle_shift_div_r; lra.
Qed.

Lemma third_between (x y z : Q) :
  between 0 1 x -> between 0 1 y -> between 0 1 z ->
  between 0 1 ((x + y + z) / 3).
Proof.
  unfold between. intros [? ?] [? ?] [? ?]. split.
  - apply div_nonneg; lra.
  - apply Qle_shift_div_r; lra.
Qed.

End Scores.

(** ** The scorer: source dependency, overall scores, bounds *)

Section Scorer.
Import JS Num A2AAgent Spec.
Local Open Scope Q_scope.

(** The method the name resolves to is the second definition. *)
Lemma prototype_assessSourceDependency :
  prototype !! "assessSourceDependency"%string
  = Some assessSourceDependency_second.
Proof. reflexivity. Qed.

(** Had the class kept its first definition, the call would return the
    normalized count. *)
Lemma assessSourceDependency_first_returns (self : jsstring -> option Q)
    (text : jsstring) :
  assessSourceDependency_first self text
  = Some (assessSourceDependency_counting text).
Proof. reflexivity. Qed.

(** C1: the definition of [assessSourceDependency] in effect is the second
    one, whose body calls the same method again; whatever the text and
    however deep the nesting allowed, a call returns no value. *)
Theorem assessSourceDependency_never_returns :
  prototype !! "assessSourceDependency"%string
  = Some assessSourceDependency_second
  /\ forall (fuel : nat) (text : jsstring),
       assessSourceDependency fuel text = None.
Proof.
  split; [reflexivity | ].
  induction fuel as [ | fuel IH]; intros text.
  - reflexivity.
  - change (assessSourceDependency (S fuel) text)
      with (match prototype !! "assessSourceDependency"%string with
            | Some method => method (assessSourceDependency fuel) text
            | None => None
            end).
    pose proof prototype_assessSourceDependency as E.
    unfold Method in E |- *. rewrite E.
    unfold assessSourceDependency_second. apply IH.
Qed.

Lemma assessSourceDependency_None (fuel : nat) (text : jsstring) :
  assessSourceDependency fuel text = None.
Proof.
  revert text. induction fuel as [ | fuel IH]; intros text; [reflexivity | ].
  change (assessSourceDependency (S fuel) text)
    with (match prototype !! "assessSourceDependency"%string with
          | Some method => method (assessSourceDependency fuel) text
          | None => None
          end).
  pose proof prototype_assessSourceDependency as E.
  unfold Method in E |- *. rewrite E. apply IH.
Qed.

(** Every analysis that reads the source dependency shares its fate. *)
Lemma performArgumentAnalysis_never_returns (fuel : nat) (text : jsstring) :
  analyzeEvidence fuel text = None
  /\ analyzeOriginality fuel text = None
  /\ performArgumentAnalysis fuel text = None.
Proof.
  unfold performArgumentAnalysis, analyzeEvidence, analyzeOriginality.
  rewrite assessSourceDependency_None. repeat split; reflexivity.
Qed.

(** What [performArgumentAnalysis] assembles from the value of the source
    dependency. *)
Lemma performArgumentAnalysis_given (fuel : nat) (text : jsstring) :
  performArgumentAnalysis fuel text
  = (sourceDependency ← assessSourceDependency fuel text;
     Some (Analysis.mk (dimensionsGiven sourceDependency text)
             (calculateOverallScores (dimensionsGiven sourceDependency text)))).
Proof.
  unfold performArgumentAnalysis, analyzeEvidence, analyzeOriginality,
    calculateOriginalityScore.
  destruct (assessSourceDependency fuel text); reflexivity.
Qed.

(** [overall.total] is the constant of line 811. *)
Lemma calculateOverallScores_total (d : Dimensions.t) :
  Overall.total (calculateOverallScores d) = 0.
Proof. reflexivity. Qed.

(** C2: on the analysis of the empty text (source dependency 0) the mean
    of the six per-dimension scores is 3/40, and [overall.total] is 0. *)
Theorem calculateOverallScores_total_not_mean :
  let overall := calculateOverallScores (dimensionsGiven 0 (js "")) in
  Overall.total overall == 0
  /\ meanOfDimensions overall == 3 # 40
  /\ ~ Overall.total overall == meanOfDimensions overall.
Proof.
  vm_compute. repeat split; intros H; discriminate H.
Qed.

(** The average of a history the scorer filled is 0. *)
Lemma calculateAverageScore_scored (history : list HistoryEntry.t) :
  scoredHistory history -> calculateAverageScore history == 0.
Proof.
  intros Hs. unfold calculateAverageScore.
  destruct (length history =? 0)%nat; [reflexivity | ].
  assert (Hsum : forall acc,
             foldl (fun sum analysis =>
                      sum + Overall.total (Analysis.overall
                                             (HistoryEntry.analysis analysis)))
                   acc history == acc).
  { induction Hs as [ | entry history Hentry _ IH]; intros acc.
    - reflexivity.
    - cbn [foldl]. rewrite IH, Hentry, calculateOverallScores_total. lra. }
  rewrite Hsum. unfold Qdiv. lra.
Qed.

Lemma scoredHistory_slice (history : list HistoryEntry.t) (start : Z)
    (stop : option Z) :
  scoredHistory history -> scoredHistory (slice history start stop).
Proof.
  intros Hs. unfold slice, scoredHistory. apply Forall_take, Forall_drop, Hs.
Qed.

(** With the totals the scorer stores, no session is ever found to be
    improving: the improvement is 0. *)
Lemma calculateProgress_scored
    (analysisHistory : gmap jsstring (list HistoryEntry.t))
    (sessionId : jsstring) (history : list HistoryEntry.t) :
  analysisHistory !! sessionId = Some history ->
  scoredHistory history ->
  Progress.improvement (calculateProgress analysisHistory sessionId) == 0
  /\ Progress.trend (calculateProgress analysisHistory sessionId)
     <> js "improving".
Proof.
  intros Hget Hs. unfold calculateProgress. rewrite Hget.
  destruct (length history <? 2)%nat; [split; [reflexivity | discriminate] | ].
  destruct (length (slice history (-6) (Some (-3)%Z)) =? 0)%nat;
    [split; [reflexivity | discriminate] | ].
  pose proof (calculateAverageScore_scored _
                (scoredHistory_slice history (-3) None Hs)) as Hrecent.
  pose proof (calculateAverageScore_scored _
                (scoredHistory_slice history (-6) (Some (-3)%Z) Hs)) as Holder.
  cbn [Progress.improvement Progress.trend]. split; [lra | ].
  destruct (gtb _ 0.1) eqn:Hgt.
  - apply gtb_gt in Hgt. lra.
  - destruct (ltb _ (-0.1)); discriminate.
Qed.

(** The trend rule itself: on a history of six entries whose totals are
    0.2, 0.2, 0.2, 0.8, 0.8, 0.8, [calculateProgress] reports an
    improvement of 0.6. *)
Lemma calculateProgress_improving
    (analysisHistory : gmap jsstring (list HistoryEntry.t))
    (sessionId : jsstring) (history : list HistoryEntry.t) :
  analysisHistory !! sessionId = Some history ->
  Forall2 Qeq (totals history) [0.2; 0.2; 0.2; 0.8; 0.8; 0.8] ->
  Progress.trend (calculateProgress analysisHistory sessionId) = js "improving"
  /\ Progress.improvement (calculateProgress analysisHistory sessionId) == 0.6.
Proof.
  intros Hget Htotals. unfold calculateProgress. rewrite Hget.
  destruct history as [ | e1 [ | e2 [ | e3 [ | e4 [ | e5 [ | e6 [ | e7 rest]]]]]]];
    try (exfalso; apply Forall2_length in Htotals; discriminate Htotals).
  unfold totals in Htotals. cbn [map] in Htotals.
  repeat match goal with
         | H : Forall2 _ (_ :: _) (_ :: _) |- _ =>
             apply Forall2_cons_1 in H; destruct H as [? H]
         end.
  change (slice [e1; e2; e3; e4; e5; e6] (-3) None) with [e4; e5; e6].
  change (slice [e1; e2; e3; e4; e5; e6] (-6) (Some (-3)%Z))
    with [e1; e2; e3].
  cbn [length Nat.ltb Nat.leb Nat.eqb Progress.trend Progress.improvement].
  unfold calculateAverageScore.
  cbn [length Nat.eqb foldl].
  change (ofCount 3) with 3.
  set (improvement := _ / 3 - _ / 3).
  assert (Himp : improvement == 0.6).
  { unfold improvement, Qdiv. change (/ 3) with (1 # 3). lra. }
  split; [ | exact Himp].
  assert (Hgt : gtb improvement 0.1 = true) by (apply gtb_gt; lra).
  rewrite Hgt. reflexivity.
Qed.

(** C3 (as worded): on the empty text the thesis clarity is 0.3 and the
    three placeholder scores are 0.7; none of the four is 0. *)
Lemma empty_text_scores_not_all_zero :
  ~ Content.thesisClarity (analyzeContent (js "")) == 0
  /\ ~ Content.topicRelevance (analyzeContent (js "")) == 0
  /\ ~ Reasoning.consistency (analyzeReasoning (js "")) == 0
  /\ ~ assessEvidenceRelevance (js "") == 0.
Proof.
  vm_compute. repeat split; intros H; discriminate H.
Qed.

(** C3 (amended): on the empty text every sub-score computed from an
    indicator count is 0, the thesis clarity is 0.3, and the placeholder
    scores (topic relevance, consistency, evidence relevance) are 0.7. *)
Theorem empty_text_scores :
  let structure := analyzeStructure (js "") in
  let content := analyzeContent (js "") in
  let reasoning := analyzeReasoning (js "") in
  let criticalThinking := analyzeCriticalThinking (js "") in
  (Structure.sentenceCount structure = 0%nat
   /\ Structure.averageSentenceLength structure == 0
   /\ Structure.coherence structure == 0
   /\ Structure.organization structure == 0)
  /\ (Content.depth content == 0
      /\ Content.breadth content == 0
      /\ Content.thesisClarity content == 0.3
      /\ Content.topicRelevance content == 0.7)
  /\ (Reasoning.logicalConnections reasoning = 0%nat
      /\ Reasoning.fallacies reasoning = 0%nat
      /\ Reasoning.argumentFlow reasoning == 0
      /\ Reasoning.reasoningQuality reasoning == 0
      /\ Reasoning.consistency reasoning == 0.7)
  /\ (EvidenceIndicators.count (extractEvidenceIndicators (js "")) = 0%nat
      /\ assessEvidenceQuality (js "") == 0
      /\ assessEvidenceRelevance (js "") == 0.7)
  /\ (CriticalThinking.questioning criticalThinking = 0%nat
      /\ CriticalThinking.analysis criticalThinking = 0%nat
      /\ CriticalThinking.evaluation criticalThinking = 0%nat
      /\ CriticalThinking.synthesis criticalThinking = 0%nat
      /\ CriticalThinking.metacognition criticalThinking = 0%nat
      /\ CriticalThinking.overallLevel criticalThinking == 0)
  /\ (detectPersonalInsights (js "") = 0%nat
      /\ detectCreativeElements (js "") = 0%nat).
Proof.
  vm_compute. repeat split; reflexivity.
Qed.

End Scorer.

(** ** Bounds of the sub-scores *)

Section Bounds.
Import JS Num A2AAgent Spec.
Local Open Scope Q_scope.

Lemma constant_inUnit (x : Q) : 0 <= x -> x <= 1 -> inUnit x.
Proof. intros H0 H1. split; assumption. Qed.

Lemma assessThesisClarity_inUnit (text : jsstring) :
  inUnit (assessThesisClarity text).
Proof.
  unfold assessThesisClarity.
  destruct (detectThesis text); apply constant_inUnit; lra.
Qed.

Lemma assessReasoningQuality_inUnit (text : jsstring) :
  inUnit (assessReasoningQuality text).
Proof. apply clip_between. Qed.

Lemma originalityFormula_inUnit (sourceDependency : Q)
    (personalInsights creativeElements : nat) :
  inUnit (originalityFormula sourceDependency personalInsights
                             creativeElements).
Proof. apply clip_between. Qed.

(** C5 (as worded): the text "por lo tanto por lo tanto" has two logical
    connections, and the sub-score [logicalConnections] of its reasoning
    analysis is that count, 2, which is above 1. *)
Lemma logicalConnections_above_one :
  Reasoning.logicalConnections
    (analyzeReasoning (js "por lo tanto por lo tanto")) = 2%nat
  /\ ~ inUnit (ofCount (Reasoning.logicalConnections
                          (analyzeReasoning (js "por lo tanto por lo tanto")))).
Proof.
  split; [reflexivity | ].
  intros [_ H]. vm_compute in H. apply H. reflexivity.
Qed.

(** C5 (amended): for every text, and whatever value the source dependency
    has, the normalized sub-scores of the six dimensions and the seven
    values of the overall summary lie in [0,1].  The count metrics and the
    source dependency itself are not part of the statement. *)
Theorem normalized_scores_inUnit (sourceDependency : Q) (text : jsstring) :
  let d := dimensionsGiven sourceDependency text in
  Forall inUnit (normalizedScores d)
  /\ Forall inUnit (overallScores (calculateOverallScores d)).
Proof.
  assert (Hcoh : inUnit (assessCoherence text))
    by (apply clamp_between; lra).
  assert (Horg : inUnit (assessOrganization text))
    by (apply clamp_between; lra).
  assert (Hthe : inUnit (assessThesisClarity text))
    by apply assessThesisClarity_inUnit.
  assert (Htop : inUnit (assessTopicRelevance text))
    by (apply constant_inUnit; unfold assessTopicRelevance; lra).
  assert (Hcon : inUnit (assessConsistency text))
    by (apply constant_inUnit; unfold assessConsistency; lra).
  assert (Hdep : inUnit (assessDepth text)) by (apply clamp_between; lra).
  assert (Hbre : inUnit (assessBreadth text)) by (apply clamp_between; lra).
  assert (Hflo : inUnit (assessArgumentFlow text))
    by (apply clamp_between; lra).
  assert (Hrea : inUnit (assessReasoningQuality text))
    by apply assessReasoningQuality_inUnit.
  assert (Hevq : inUnit (assessEvidenceQuality text))
    by (apply clamp_between; lra).
  assert (Hevr : inUnit (assessEvidenceRelevance text))
    by (apply constant_inUnit; unfold assessEvidenceRelevance; lra).
  assert (Hcri : inUnit (calculateCriticalThinkingLevel text))
    by (apply clamp_between; lra).
  assert (Hori : inUnit (originalityFormula sourceDependency
                           (detectPersonalInsights text)
                           (detectCreativeElements text)))
    by apply originalityFormula_inUnit.
  cbn zeta. split.
  - unfold normalizedScores, dimensionsGiven, analyzeStructure,
      analyzeContent, analyzeReasoning, analyzeCriticalThinking.
    cbn [Dimensions.structure Dimensions.content Dimensions.reasoning
         Dimensions.evidence Dimensions.criticalThinking
         Dimensions.originality Structure.coherence Structure.organization
         Content.thesisClarity Content.topicRelevance Content.depth
         Content.breadth Reasoning.argumentFlow Reasoning.consistency
         Reasoning.reasoningQuality Evidence.evidenceQuality
         Evidence.evidenceRelevance CriticalThinking.overallLevel
         Originality.originalityScore].
    repeat (apply List.Forall_cons); try assumption; apply List.Forall_nil.
  - unfold overallScores, calculateOverallScores, dimensionsGiven,
      analyzeStructure, analyzeContent, analyzeReasoning,
      analyzeCriticalThinking.
    cbn [Dimensions.structure Dimensions.content Dimensions.reasoning
         Dimensions.evidence Dimensions.criticalThinking
         Dimensions.originality Structure.coherence Structure.organization
         Content.thesisClarity Content.topicRelevance Content.depth
         Content.breadth Reasoning.argumentFlow Reasoning.consistency
         Reasoning.reasoningQuality Evidence.evidenceQuality
         Evidence.evidenceRelevance CriticalThinking.overallLevel
         Originality.originalityScore Overall.structure Overall.content
         Overall.reasoning Overall.evidence Overall.criticalThinking
         Overall.originality Overall.total].
    repeat (apply List.Forall_cons); try assumption; try apply List.Forall_nil.
    + apply half_between; assumption.
    + apply third_between; assumption.
    + apply half_between; assumption.
    + apply constant_inUnit; lra.
Qed.

End Bounds.

(** ** Weaknesses, strengths and the template tables *)

Section Classifier.
Import JS Num A2AAgent Spec.
Local Open Scope Q_scope.

Lemma In_map_pushIf {A B} (f : A -> B) (cond : bool) (x : A) (l : list A)
    (y : B) :
  In y (map f (pushIf cond x l))
  <-> In y (map f l) \/ (cond = true /\ y = f x).
Proof.
  unfold pushIf. destruct cond.
  - rewrite map_app, in_app_iff. cbn [map In]. intuition congruence.
  - intuition congruence.
Qed.

(** The areas flagged as weak, rule by rule. *)
Lemma weakAreas_spec (d : Dimensions.t) (area : jsstring) :
  In area (weakAreas d) <->
  (area = js "Tesis"
   /\ Content.thesisClarity (Dimensions.content d) < 0.6)
  \/ (area = js "Evidencia"
      /\ (Evidence.evidenceCount (Dimensions.evidence d) < 2)%nat)
  \/ (area = js "Originalidad"
      /\ 0.7 < Originality.sourceDependency (Dimensions.originality d))
  \/ (area = js "Razonamiento"
      /\ Reasoning.reasoningQuality (Dimensions.reasoning d) < 0.6)
  \/ (area = js "Pensamiento Crítico"
      /\ CriticalThinking.overallLevel (Dimensions.criticalThinking d) < 0.5).
Proof.
  unfold weakAreas, identifyWeaknesses. cbn zeta.
  rewrite !In_map_pushIf. cbn [map In Weakness.area].
  rewrite !ltb_lt, gtb_gt, Nat.ltb_lt. tauto.
Qed.

(** The areas praised as strong, rule by rule. *)
Lemma strongAreas_spec (d : Dimensions.t) (area : jsstring) :
  In area (strongAreas d) <->
  (area = js "Tesis"
   /\ 0.8 < Content.thesisClarity (Dimensions.content d))
  \/ (area = js "Evidencia"
      /\ (3 <= Evidence.evidenceCount (Dimensions.evidence d))%nat)
  \/ (area = js "Originalidad"
      /\ 0.6 < Originality.originalityScore (Dimensions.originality d))
  \/ (area = js "Razonamiento"
      /\ 0.8 < Reasoning.reasoningQuality (Dimensions.reasoning d)).
Proof.
  unfold strongAreas, identifyStrengths. cbn zeta.
  rewrite !In_map_pushIf. cbn [map In Strength.area].
  rewrite !gtb_gt, Nat.leb_le. tauto.
Qed.

(** C4 (as worded): for the analysis of [dependentButOriginal], with the
    source dependency 4/5 that its four source indicators count for, the
    area "Originalidad" is both in the weaknesses (source dependency above
    0.7) and in the strengths (originality score 4/5, above 0.6). *)
Lemma originality_weak_and_strong :
  let d := dimensionsGiven
             (assessSourceDependency_counting dependentButOriginal)
             dependentButOriginal in
  Originality.sourceDependency (Dimensions.originality d) == 4 # 5
  /\ Originality.originalityScore (Dimensions.originality d) == 4 # 5
  /\ In (js "Originalidad") (weakAreas d)
  /\ In (js "Originalidad") (strongAreas d).
Proof.
  cbn zeta. split; [ | split; [ | split]].
  - vm_compute. reflexivity.
  - vm_compute. reflexivity.
  - apply weakAreas_spec. right. right. left. split; [reflexivity | ].
    vm_compute. reflexivity.
  - apply strongAreas_spec. right. right. left. split; [reflexivity | ].
    vm_compute. reflexivity.
Qed.

(** C4 (amended): an area that is in the weaknesses and in the strengths
    of one analysis is "Originalidad"; the areas "Tesis", "Evidencia",
    "Razonamiento" and "Pensamiento Crítico" are never in both. *)
Theorem weak_and_strong_is_originality (d : Dimensions.t) (area : jsstring) :
  In area (weakAreas d) -> In area (strongAreas d) ->
  area = js "Originalidad".
Proof.
  rewrite weakAreas_spec, strongAreas_spec.
  intros [[-> Hw] | [[-> Hw] | [[-> Hw] | [[-> Hw] | [-> Hw]]]]]
         [[E Hs] | [[E Hs] | [[E Hs] | [E Hs]]]];
    try reflexivity;
    try (vm_compute in E; discriminate E);
    try lra; lia.
Qed.

Lemma weak_and_strong_is_originality_witness :
  let d := dimensionsGiven
             (assessSourceDependency_counting dependentButOriginal)
             dependentButOriginal in
  In (js "Originalidad") (weakAreas d)
  /\ In (js "Originalidad") (strongAreas d)
  /\ js "Originalidad" = js "Originalidad".
Proof.
  cbn zeta.
  assert (Hw : In (js "Originalidad")
                 (weakAreas
                    (dimensionsGiven
                       (assessSourceDependency_counting dependentButOriginal)
                       dependentButOriginal))).
  { apply weakAreas_spec. right. right. left. split; [reflexivity | ].
    vm_compute. reflexivity. }
  assert (Hs : In (js "Originalidad")
                 (strongAreas
                    (dimensionsGiven
                       (assessSourceDependency_counting dependentButOriginal)
                       dependentButOriginal))).
  { apply strongAreas_spec. right. right. left. split; [reflexivity | ].
    vm_compute. reflexivity. }
  split; [exact Hw | split; [exact Hs | ]].
  exact (weak_and_strong_is_originality _ _ Hw Hs).
Defined.

(** The tags of the weaknesses are the five of [weaknessTypes]. *)
Lemma identifyWeaknesses_types (d : Dimensions.t) (type : jsstring) :
  In type (map Weakness.type (identifyWeaknesses d)) -> In type weaknessTypes.
Proof.
  unfold identifyWeaknesses. cbn zeta.
  rewrite !In_map_pushIf. cbn [map In Weakness.type]. unfold weaknessTypes.
  cbn [In]. intuition.
Qed.

(** C6 (as worded): the challenge table has no entry for the weakness
    type "source_dependency", and [createMicroChallenge] gives [null] for a
    weakness of that type. *)
Lemma challengeTemplates_source_dependency :
  In (js "source_dependency") weaknessTypes
  /\ challengeTemplates !! js "source_dependency" = None
  /\ forall (stamp suffix area priority : jsstring) (score : Q),
       createMicroChallenge stamp suffix
         (Weakness.mk (js "source_dependency") area score priority) = None.
Proof.
  split; [ | split].
  - unfold weaknessTypes. cbn [In]. tauto.
  - vm_compute. reflexivity.
  - intros. reflexivity.
Qed.

(** C6 (amended): the feedback table has an entry for each of the five
    weakness types; the challenge table has one for each of them but
    "source_dependency". *)
Theorem template_tables_entries :
  Forall (fun type =>
            is_Some (feedbackTemplates !! type)
            /\ (is_Some (challengeTemplates !! type)
                <-> type <> js "source_dependency"))
         weaknessTypes.
Proof.
  unfold weaknessTypes.
  repeat (apply List.Forall_cons); try apply List.Forall_nil.
  all: split; [eexists; vm_compute; reflexivity | ].
  all: split;
    [ intros [t Ht] E; first [ discriminate E | vm_compute in Ht; discriminate Ht ]
    | intros Hne; first [ exfalso; apply Hne; reflexivity
                        | eexists; vm_compute; reflexivity ] ].
Qed.

End Classifier.

(** ** Monotonicity in the indicator counts *)

Section Monotonicity.
Import JS Num A2AAgent Spec.
Local Open Scope Q_scope.

Lemma countIn_acc (indicators : list jsstring) (text : jsstring) (acc : nat) :
  foldl (fun sum indicator => (sum + occurrences text indicator)%nat) acc
        indicators
  = (acc + countIn indicators text)%nat.
Proof.
  unfold countIn. revert acc.
  induction indicators as [ | q indicators IH]; intros acc; cbn [foldl].
  - lia.
  - rewrite IH, (IH (0 + _)%nat). lia.
Qed.

Lemma countIn_cons (q : jsstring) (indicators : list jsstring)
    (text : jsstring) :
  countIn (q :: indicators) text
  = (occurrences text q + countIn indicators text)%nat.
Proof. unfold countIn at 1. cbn [foldl]. apply countIn_acc. Qed.

Lemma countIn_app (l1 l2 : list jsstring) (text : jsstring) :
  countIn (l1 ++ l2) text = (countIn l1 text + countIn l2 text)%nat.
Proof.
  induction l1 as [ | q l1 IH]; [reflexivity | ].
  cbn [app]. rewrite !countIn_cons, IH. lia.
Qed.

Lemma countIn_le (indicators : list jsstring) (t1 t2 : jsstring) :
  (forall q, In q indicators -> (occurrences t1 q <= occurrences t2 q)%nat) ->
  (countIn indicators t1 <= countIn indicators t2)%nat.
Proof.
  induction indicators as [ | q indicators IH]; intros H; [reflexivity | ].
  rewrite !countIn_cons.
  apply Nat.add_le_mono; [apply H; left; reflexivity | ].
  apply IH. intros q' Hq'. apply H. right. exact Hq'.
Qed.

Lemma countIn_eq (indicators : list jsstring) (t1 t2 : jsstring) :
  (forall q, In q indicators -> occurrences t1 q = occurrences t2 q) ->
  countIn indicators t1 = countIn indicators t2.
Proof.
  intros H. apply Nat.le_antisymm; apply countIn_le; intros q Hq;
    rewrite (H q Hq); reflexivity.
Qed.

(** A text includes an indicator exactly when [split] counts it. *)
Lemma splitFrom_nonempty (sep s : jsstring) (skip : nat) (cur : jsstring) :
  (1 <= length (splitFrom sep s skip cur))%nat.
Proof.
  revert skip cur. induction s as [ | c s IH]; intros skip cur.
  - cbn. lia.
  - cbn [splitFrom]. destruct skip as [ | k]; [ | apply IH].
    destruct (startsWith sep (c :: s)); [cbn [length]; lia | apply IH].
Qed.

Lemma includes_splitFrom (sep s cur : jsstring) :
  sep <> [] ->
  includes s sep = true <-> (2 <= length (splitFrom sep s 0 cur))%nat.
Proof.
  intros Hne. revert cur. induction s as [ | c s IH]; intros cur.
  - cbn. destruct sep; [congruence | ]. cbn. split; [discriminate | lia].
  - cbn [includes splitFrom].
    destruct (startsWith sep (c :: s)) eqn:Hstart.
    + cbn [orb length].
      pose proof (splitFrom_nonempty sep s (pred (length sep)) []).
      split; [lia | reflexivity].
    + cbn [orb]. apply IH.
Qed.

Lemma includes_occurrences (text indicator : jsstring) :
  indicator <> [] ->
  includes (toLowerCase text) indicator = true
  <-> (0 < occurrences text indicator)%nat.
Proof.
  intros Hne. unfold occurrences, split.
  rewrite (includes_splitFrom indicator (toLowerCase text) [] Hne). lia.
Qed.

Lemma someIn_countIn (indicators : list jsstring) (text : jsstring) :
  Forall (fun indicator => indicator <> []) indicators ->
  someIn indicators text = true <-> (0 < countIn indicators text)%nat.
Proof.
  unfold someIn. induction 1 as [ | q indicators Hq _ IH].
  - cbn. split; [discriminate | lia].
  - cbn [existsb]. rewrite countIn_cons, orb_true_iff, IH.
    rewrite (includes_occurrences text q Hq). lia.
Qed.

(** The evidence count is the count over the four lists of evidence
    indicators. *)
Lemma extractEvidenceIndicators_count (text : jsstring) :
  EvidenceIndicators.count (extractEvidenceIndicators text)
  = countIn (concat (map snd evidenceTypes)) text.
Proof.
  unfold extractEvidenceIndicators, evidenceTypes.
  cbn [map snd concat foldl EvidenceIndicators.count].
  rewrite !countIn_app.
  generalize (countIn [js "porcentaje"; js "estadística"; js "dato";
                       js "cifra"] text) as c1.
  generalize (countIn [js "ejemplo"; js "caso"; js "instancia";
                       js "muestra"] text) as c2.
  generalize (countIn [js "cita"; js "dice"; js "menciona"; js "afirma"]
                      text) as c3.
  generalize (countIn [js "según"; js "fuente"; js "referencia";
                       js "estudio"] text) as c4.
  intros c4 c3 c2 c1. change (countIn [] text) with 0%nat.
  destruct c1, c2, c3, c4; cbn [Nat.ltb Nat.leb app map snd foldl]; lia.
Qed.

(** The indicators a score adds and those it subtracts are different
    phrases. *)
Lemma countedAgainst_not_countedFor (c : Category) (p q : jsstring) :
  In p (countedFor c) -> In q (countedAgainst c) -> q <> p.
Proof.
  destruct c; cbn [countedAgainst In]; try tauto;
    unfold countedFor, connectionIndicators, fallacyIndicators,
      personalIndicators, creativeIndicators, sourceIndicators;
    cbn [app In];
    intros Hp Hq E; subst q;
    repeat (destruct Hp as [Hp | Hp]; [subst p | ]); try exact Hp;
    repeat (destruct Hq as [Hq | Hq];
            [vm_compute in Hq; discriminate Hq | ]); exact Hq.
Qed.

Lemma moreOccurrences_le (c : Category) (p t1 t2 q : jsstring) :
  moreOccurrences c p t1 t2 -> In q (indicatorsOf c) ->
  (occurrences t1 q <= occurrences t2 q)%nat.
Proof.
  intros [Hp Hother] Hq.
  destruct (decide (q = p)) as [-> | Hne]; [lia | ].
  rewrite (Hother q Hq Hne). reflexivity.
Qed.

Lemma moreOccurrences_countedFor (c : Category) (p t1 t2 : jsstring) :
  moreOccurrences c p t1 t2 ->
  (countIn (countedFor c) t1 <= countIn (countedFor c) t2)%nat.
Proof.
  intros H. apply countIn_le. intros q Hq.
  apply (moreOccurrences_le c p); [exact H | ].
  unfold indicatorsOf. apply in_or_app. left. exact Hq.
Qed.

Lemma moreOccurrences_countedAgainst (c : Category) (p t1 t2 : jsstring) :
  In p (countedFor c) -> moreOccurrences c p t1 t2 ->
  countIn (countedAgainst c) t1 = countIn (countedAgainst c) t2.
Proof.
  intros Hp [_ Hother]. apply countIn_eq. intros q Hq.
  apply Hother.
  - unfold indicatorsOf. apply in_or_app. right. exact Hq.
  - apply (countedAgainst_not_countedFor c); assumption.
Qed.

Lemma moreOccurrences_sublist (c : Category) (p t1 t2 : jsstring)
    (l : list jsstring) :
  moreOccurrences c p t1 t2 ->
  (forall q, In q l -> In q (indicatorsOf c)) ->
  (countIn l t1 <= countIn l t2)%nat.
Proof.
  intros Hmore Hl. apply countIn_le. intros q Hq.
  apply (moreOccurrences_le c p); [exact Hmore | apply Hl, Hq].
Qed.

(** The thesis clarity does not fall when the thesis indicators are
    counted at least as often. *)
Lemma assessThesisClarity_le (t1 t2 : jsstring) :
  (countIn thesisIndicators t1 <= countIn thesisIndicators t2)%nat ->
  assessThesisClarity t1 <= assessThesisClarity t2.
Proof.
  intros Hle. unfold assessThesisClarity, detectThesis.
  assert (Hne : Forall (fun indicator => indicator <> []) thesisIndicators).
  { unfold thesisIndicators.
    repeat (apply List.Forall_cons; [vm_compute; discriminate | ]).
    apply List.Forall_nil. }
  destruct (someIn thesisIndicators t1) eqn:H1;
    destruct (someIn thesisIndicators t2) eqn:H2; try lra.
  apply (someIn_countIn _ _ Hne) in H1.
  assert (Hpos : (0 < countIn thesisIndicators t2)%nat) by lia.
  apply (someIn_countIn _ _ Hne) in Hpos. congruence.
Qed.

(** The reasoning quality never rises with the fallacy count. *)
Lemma reasoningQuality_antitone (connections f1 f2 : nat) :
  (f1 <= f2)%nat ->
  Qmax 0 (Qmin 1 ((ofCount connections - ofCount f2) / 3))
  <= Qmax 0 (Qmin 1 ((ofCount connections - ofCount f1) / 3)).
Proof.
  intros H. apply clip_le, div_le; [lra | ].
  pose proof (ofCount_le _ _ H). lra.
Qed.

(** C10 (as worded): "nunca" is an indicator phrase of the reasoning
    quality; the text "por lo tanto nunca" has one more occurrence of it
    than "por lo tanto" and as many of every other indicator, and its
    reasoning quality is 0, below the 1/3 of "por lo tanto". *)
Lemma more_fallacies_lower_reasoningQuality :
  In (js "nunca") (indicatorsOf ReasoningQuality)
  /\ moreOccurrences ReasoningQuality (js "nunca")
       (js "por lo tanto") (js "por lo tanto nunca")
  /\ categoryScore ReasoningQuality (js "por lo tanto") == 1 # 3
  /\ categoryScore ReasoningQuality (js "por lo tanto nunca") == 0
  /\ ~ categoryScore ReasoningQuality (js "por lo tanto")
       <= categoryScore ReasoningQuality (js "por lo tanto nunca").
Proof.
  split; [ | split; [ | split; [ | split]]].
  - unfold indicatorsOf, countedFor, countedAgainst, connectionIndicators,
      fallacyIndicators. cbn [app In]. tauto.
  - split.
    + vm_compute. lia.
    + unfold indicatorsOf, countedFor, countedAgainst, connectionIndicators,
        fallacyIndicators. cbn [app In].
      intros q Hq Hne.
      repeat (destruct Hq as [Hq | Hq];
              [subst q;
               first [ exfalso; apply Hne; reflexivity
                     | vm_compute; reflexivity ] | ]).
      destruct Hq.
  - vm_compute. reflexivity.
  - vm_compute. reflexivity.
  - vm_compute. intros H. apply H. reflexivity.
Qed.

(** The source indicators are subtracted in the same way by the
    originality score: with the count-based source dependency, "crear crear
    crear según" scores 2/5, below the 3/5 of "crear crear crear". *)
Lemma more_sources_lower_originality :
  In (js "según") (countedAgainst OriginalityCounted)
  /\ moreOccurrences OriginalityCounted (js "según")
       (js "crear crear crear") (js "crear crear crear según")
  /\ categoryScore OriginalityCounted (js "crear crear crear") == 3 # 5
  /\ categoryScore OriginalityCounted (js "crear crear crear según") == 2 # 5.
Proof.
  split; [ | split; [ | split]].
  - cbn [countedAgainst]. unfold sourceIndicators. cbn [In]. tauto.
  - split.
    + vm_compute. lia.
    + unfold indicatorsOf, countedFor, countedAgainst, personalIndicators,
        creativeIndicators, sourceIndicators. cbn [app In].
      intros q Hq Hne.
      repeat (destruct Hq as [Hq | Hq];
              [subst q;
               first [ exfalso; apply Hne; reflexivity
                     | vm_compute; reflexivity ] | ]).
      destruct Hq.
  - vm_compute. reflexivity.
  - vm_compute. reflexivity.
Qed.

(** C10 (amended): when a text has strictly more occurrences of a phrase
    that a score adds to its count, and as many of every other indicator
    phrase of that score, its score is not lower.  The scores are those of
    [Category]: coherence, organization, thesis clarity, depth, breadth,
    argument flow, reasoning quality, evidence quality, critical-thinking
    level, source dependency (count-based), originality (for any given
    source dependency, and for the count-based one), and the overall
    structure, content and evidence values. *)
Theorem more_occurrences_not_lower (c : Category) (p t1 t2 : jsstring) :
  In p (countedFor c) -> moreOccurrences c p t1 t2 ->
  categoryScore c t1 <= categoryScore c t2.
Proof.
  intros Hp Hmore.
  pose proof (moreOccurrences_countedFor c p t1 t2 Hmore) as Hfor.
  pose proof (moreOccurrences_countedAgainst c p t1 t2 Hp Hmore) as Hagainst.
  assert (Hsub : forall l, incl l (countedFor c) ->
                           (countIn l t1 <= countIn l t2)%nat).
  { intros l Hl. apply (moreOccurrences_sublist c p); [exact Hmore | ].
    intros q Hq. unfold indicatorsOf. apply in_or_app. left. apply Hl, Hq. }
  destruct c; cbn [categoryScore countedFor countedAgainst] in *.
  - apply clamp_le; [lra | exact Hfor].
  - apply clamp_le; [lra | exact Hfor].
  - apply clamp_le; [lra | exact Hfor].
  - apply clamp_le; [lra | exact Hfor].
  - apply clamp_le; [lra | exact Hfor].
  - unfold assessReasoningQuality, detectLogicalConnections, detectFallacies.
    cbn zeta. rewrite Hagainst. apply clip_le, div_le; [lra | ].
    pose proof (ofCount_le _ _ Hfor). lra.
  - unfold assessEvidenceQuality. cbn zeta.
    rewrite !extractEvidenceIndicators_count.
    apply clamp_le; [lra | exact Hfor].
  - unfold calculateCriticalThinkingLevel, detectQuestioning, detectAnalysis,
      detectEvaluation, detectSynthesis, detectMetacognition. cbn zeta.
    rewrite !countIn_app in Hfor.
    apply clamp_le; [lra | lia].
  - apply assessThesisClarity_le, Hfor.
  - apply clamp_le; [lra | exact Hfor].
  - unfold originalityFormula, detectPersonalInsights, detectCreativeElements.
    rewrite !countIn_app in Hfor.
    pose proof (ofCount_le _ _ Hfor) as Hcount.
    pose proof (div_le 5 _ _ ltac:(lra) Hcount).
    apply clip_le. lra.
  - unfold originalityFormula, assessSourceDependency_counting,
      detectPersonalInsights, detectCreativeElements. cbn zeta.
    rewrite Hagainst. rewrite !countIn_app in Hfor.
    pose proof (ofCount_le _ _ Hfor) as Hcount.
    pose proof (div_le 5 _ _ ltac:(lra) Hcount).
    apply clip_le. lra.
  - cbn. apply div_le; [lra | ].
    pose proof (clamp_le 3 _ _ ltac:(lra)
                  (Hsub coherenceIndicators
                     ltac:(apply incl_appl, incl_refl))).
    pose proof (clamp_le 2 _ _ ltac:(lra)
                  (Hsub structureIndicators
                     ltac:(apply incl_appr, incl_refl))).
    unfold assessCoherence, assessOrganization. cbn zeta. lra.
  - cbn. apply div_le; [lra | ].
    pose proof (assessThesisClarity_le t1 t2
                  (Hsub thesisIndicators
                     ltac:(apply incl_appl, incl_refl))).
    pose proof (clamp_le 2 _ _ ltac:(lra)
                  (Hsub depthIndicators
                     ltac:(apply incl_appr, incl_appl, incl_refl))).
    pose proof (clamp_le 3 _ _ ltac:(lra)
                  (Hsub breadthIndicators
                     ltac:(apply incl_appr, incl_appr, incl_refl))).
    unfold assessDepth, assessBreadth. cbn zeta. lra.
  - cbn -[assessEvidenceQuality assessEvidenceRelevance].
    apply div_le; [lra | ].
    assert (assessEvidenceQuality t1 <= assessEvidenceQuality t2).
    { unfold assessEvidenceQuality. cbn zeta.
      rewrite !extractEvidenceIndicators_count.
      apply clamp_le; [lra | exact Hfor]. }
    unfold assessEvidenceRelevance. lra.
Qed.

Lemma more_occurrences_not_lower_witness :
  In (js "por lo tanto") (countedFor ReasoningQuality)
  /\ moreOccurrences ReasoningQuality (js "por lo tanto")
       (js "por lo tanto") (js "por lo tanto; por lo tanto")
  /\ categoryScore ReasoningQuality (js "por lo tanto")
     <= categoryScore ReasoningQuality (js "por lo tanto; por lo tanto").
Proof.
  assert (Hp : In (js "por lo tanto") (countedFor ReasoningQuality)).
  { cbn [countedFor]. unfold connectionIndicators. cbn [In]. tauto. }
  assert (Hmore : moreOccurrences ReasoningQuality (js "por lo tanto")
                    (js "por lo tanto") (js "por lo tanto; por lo tanto")).
  { split.
    - vm_compute. lia.
    - unfold indicatorsOf, countedFor, countedAgainst, connectionIndicators,
        fallacyIndicators. cbn [app In].
      intros q Hq Hne.
      repeat (destruct Hq as [Hq | Hq];
              [subst q;
               first [ exfalso; apply Hne; reflexivity
                     | vm_compute; reflexivity ] | ]).
      destruct Hq. }
  split; [exact Hp | split; [exact Hmore | ]].
  exact (more_occurrences_not_lower ReasoningQuality (js "por lo tanto")
           (js "por lo tanto") (js "por lo tanto; por lo tanto") Hp Hmore).
Defined.

End Monotonicity.

(** ** Learning-style detection *)

Section LearningStyle.
Import JS Spec.
Import MCP.

(** Reads the properties of a literal score table and decides the
    comparisons of [dominantStyle], innermost first. *)
Ltac read_scores :=
  repeat match goal with
    | |- context [prop 0%nat ?S (js ?key)] =>
        let v := eval vm_compute in (prop 0%nat S (js key)) in
        change (prop 0%nat S (js key)) with v
    | |- context [(?x <? ?y)%nat] =>
        is_var x; is_var y; destruct (Nat.ltb_spec x y)
    end.

(** The four-entry table of [styleScores], for any four counts. *)
Lemma dominantStyle_lastMaximal (v a r k : nat) :
  let scores := [ (js "visual", v); (js "auditory", a); (js "reading", r);
                  (js "kinesthetic", k) ] in
  dominantStyle scores = lastMaximal scores.
Proof.
  cbn zeta. unfold dominantStyle, reduce1, lastMaximal, maxScore.
  cbn [map fst snd foldl rev app List.find].
  read_scores;
    repeat match goal with
      | |- context [(?x =? ?y)%nat] => destruct (Nat.eqb_spec x y)
      end;
    cbn [fmap option_fmap option_map fst]; try reflexivity; exfalso; lia.
Qed.

Lemma dominantStyle_maximal (v a r k : nat) :
  let scores := [ (js "visual", v); (js "auditory", a); (js "reading", r);
                  (js "kinesthetic", k) ] in
  exists style, dominantStyle scores = Some style
                /\ In style (map fst scores)
                /\ prop 0%nat scores style = maxScore scores.
Proof.
  cbn zeta. unfold dominantStyle, reduce1, maxScore.
  cbn [map fst snd foldl].
  read_scores; eexists; (split; [reflexivity | ]);
    (split; [cbn [In]; tauto | ]); read_scores; lia.
Qed.

(** C7 (as worded): the message of [tiedMessage] counts 3 for the visual
    and 3 for the auditory keywords; the first modality at the maximum is
    "visual", and the detector answers "auditory". *)
Lemma tie_not_first_maximal :
  styleScores (toLowerCase tiedMessage)
  = [ (js "visual", 3%nat); (js "auditory", 3%nat); (js "reading", 0%nat);
      (js "kinesthetic", 0%nat) ]
  /\ firstMaximal (styleScores (toLowerCase tiedMessage)) = Some (js "visual")
  /\ detectLearningStyle tiedMessage = Some (js "auditory")
  /\ detectLearningStyle tiedMessage
     <> firstMaximal (styleScores (toLowerCase tiedMessage)).
Proof.
  repeat split; try (vm_compute; reflexivity).
  vm_compute. intros H. discriminate H.
Qed.

(** C7 (amended): when the maximum count is at least 2, the detector
    answers the last modality, in the order visual, auditory, reading,
    kinesthetic, whose count is the maximum; the answer is a function of
    the message. *)
Theorem detectLearningStyle_lastMaximal (message : jsstring) :
  (2 <= maxScore (styleScores (toLowerCase message)))%nat ->
  detectLearningStyle message
  = lastMaximal (styleScores (toLowerCase message)).
Proof.
  intros Hmax. unfold detectLearningStyle. cbn zeta.
  apply Nat.leb_le in Hmax. rewrite Hmax.
  unfold styleScores. cbn zeta. apply dominantStyle_lastMaximal.
Qed.

Lemma detectLearningStyle_lastMaximal_witness :
  (2 <= maxScore (styleScores (toLowerCase tiedMessage)))%nat
  /\ detectLearningStyle tiedMessage
     = lastMaximal (styleScores (toLowerCase tiedMessage)).
Proof.
  assert (Hmax : (2 <= maxScore (styleScores (toLowerCase tiedMessage)))%nat)
    by (vm_compute; lia).
  split; [exact Hmax | ].
  exact (detectLearningStyle_lastMaximal tiedMessage Hmax).
Defined.

(** A unique maximum of 1 is not enough. *)
Lemma faintMessage_undetermined :
  styleScores (toLowerCase faintMessage)
  = [ (js "visual", 1%nat); (js "auditory", 0%nat); (js "reading", 0%nat);
      (js "kinesthetic", 0%nat) ]
  /\ detectLearningStyle faintMessage = None.
Proof. split; vm_compute; reflexivity. Qed.

(** C8: either the maximum count is below 2 and the detector answers
    nothing, or it is at least 2 and the detector answers a modality whose
    count is that maximum. *)
Theorem detectLearningStyle_floor (message : jsstring) :
  let scores := styleScores (toLowerCase message) in
  ((maxScore scores < 2)%nat /\ detectLearningStyle message = None)
  \/ ((2 <= maxScore scores)%nat
      /\ exists style, detectLearningStyle message = Some style
                       /\ In style (map fst scores)
                       /\ prop 0%nat scores style = maxScore scores).
Proof.
  cbn zeta. unfold detectLearningStyle. cbn zeta.
  destruct (Nat.leb_spec 2 (maxScore (styleScores (toLowerCase message))))
    as [Hge | Hlt].
  - right. split; [exact Hge | ].
    unfold styleScores. cbn zeta. apply dominantStyle_maximal.
  - left. split; [exact Hlt | reflexivity].
Qed.

End LearningStyle.

(** ** The router *)

Section RouterProperties.
Import JS Spec.
Import MCP.

Context {Config Context Content Response World : Type}.

Implicit Types (handlers : Handlers Context Content Response World)
               (s : State Config Context Content Response World).

(** C9: [processMessage] always returns a result carrying the id of the
    message, and never throws.  A failure result comes with the status
    "failed" and the error recorded on the message.  A target that is not
    registered, or that has no [case] in the switch, gives a failure
    without any handler run: the outside world is unchanged.  When the
    handler of the target throws, the result is a failure carrying the
    message of the exception.  When it returns, the result is a success
    and the status is "completed". *)
Theorem processMessage_never_throws handlers s :
  exists s' r,
    processMessage handlers s = (s', Return r)
    /\ messageId r = id (messageObj s)
    /\ (success r = false ->
        status (messageObj s') = js "failed"
        /\ result_response r = None
        /\ exists text, result_error r = Some text
                        /\ error (messageObj s') = Some text)
    /\ (agents s !! to (messageObj s) = None ->
        success r = false
        /\ result_error r
           = Some (js "Agent " ++ to (messageObj s) ++ js " not found")
        /\ world s' = world s /\ agents s' = agents s
        /\ contexts s' = contexts s)
    /\ (dispatch handlers (to (messageObj s)) = None ->
        success r = false /\ world s' = world s)
    /\ (forall agent handle w e,
          agents s !! to (messageObj s) = Some agent ->
          dispatch handlers (to (messageObj s)) = Some handle ->
          handle (payloadOf s) (world s) = (w, Throw e) ->
          success r = false /\ result_error r = Some (message e)
          /\ world s' = w)
    /\ (forall agent handle w answer,
          agents s !! to (messageObj s) = Some agent ->
          dispatch handlers (to (messageObj s)) = Some handle ->
          handle (payloadOf s) (world s) = (w, Return answer) ->
          success r = true /\ result_response r = Some answer
          /\ status (messageObj s') = js "completed" /\ world s' = w).
Proof.
  destruct s as [ctxs ags m clock w0].
  unfold processMessage, executeAgentAction, getContext, setMessage,
    touchAgent, invoke, tryCatch, bind, gets, modify, throw, ret, payloadOf.
  cbn -[dispatch js app alter].
  destruct (ags !! to m) as [agent | ] eqn:Hagent;
    cbn -[dispatch js app alter].
  - rewrite Hagent. cbn -[dispatch js app alter].
    destruct (dispatch handlers (to m)) as [handle | ] eqn:Hcase;
      cbn -[dispatch js app alter].
    + destruct (handle _ w0) as [w [answer | e]] eqn:Hrun;
        cbn -[dispatch js app alter].
      * eexists. eexists. split; [reflexivity | ].
        cbn -[dispatch js app alter].
        split; [reflexivity | ].
        split; [discriminate | ].
        split; [discriminate | ].
        split; [discriminate | ].
        split.
        -- intros agent' handle' w' e' _ E H.
           injection E as <-. rewrite Hrun in H. discriminate H.
        -- intros agent' handle' w' answer' _ E H.
           injection E as <-. rewrite Hrun in H.
           injection H as <- <-. repeat split; reflexivity.
      * eexists. eexists. split; [reflexivity | ].
        cbn -[dispatch js app alter].
        split; [reflexivity | ].
        split.
        { intros _. split; [reflexivity | ]. split; [reflexivity | ].
          eexists. split; reflexivity. }
        split; [discriminate | ].
        split; [discriminate | ].
        split.
        -- intros agent' handle' w' e' _ E H.
           injection E as <-. rewrite Hrun in H.
           injection H as <- <-. repeat split; reflexivity.
        -- intros agent' handle' w' answer' _ E H.
           injection E as <-. rewrite Hrun in H. discriminate H.
    + eexists. eexists. split; [reflexivity | ].
      cbn -[dispatch js app alter].
      split; [reflexivity | ].
      split.
      { intros _. split; [reflexivity | ]. split; [reflexivity | ].
        eexists. split; reflexivity. }
      split; [discriminate | ].
      split; [intros _; split; reflexivity | ].
      split; intros agent' handle' w' x' _ E; discriminate E.
  - eexists. eexists. split; [reflexivity | ].
    cbn -[dispatch js app alter].
    split; [reflexivity | ].
    split.
    { intros _. split; [reflexivity | ]. split; [reflexivity | ].
      eexists. split; reflexivity. }
    split; [intros _; repeat split; reflexivity | ].
    split; [intros _; split; reflexivity | ].
    split; intros agent' handle' w' x' E; discriminate E.
Qed.

End RouterProperties.

Section RouterExamples.
Import JS Spec.
Import MCP.

(** A run of [processMessage] in which the student handler throws: the
    handler has run once, and the result is the failure carrying its
    message. *)
Lemma processMessage_never_throws_witness :
  exists s' r,
    processMessage failingHandlers (pendingFor (js "student-agent"))
    = (s', Return r)
    /\ success r = false
    /\ result_error r = Some (js "boom")
    /\ status (messageObj s') = js "failed"
    /\ world s' = 1%nat.
Proof.
  destruct (processMessage_never_throws failingHandlers
              (pendingFor (js "student-agent")))
    as (s' & r & Hrun & _ & Hfailed & _ & _ & Hthrows & _).
  destruct (Hthrows studentAgent (handleStudentAgent failingHandlers) 1%nat
              {| message := js "boom" |})
    as (Hsuccess & Herror & Hworld).
  - vm_compute. reflexivity.
  - vm_compute. reflexivity.
  - reflexivity.
  - exists s', r. split; [exact Hrun | ]. split; [exact Hsuccess | ].
    split; [exact Herror | ]. split; [ | exact Hworld].
    apply Hfailed, Hsuccess.
Defined.

(** A message for an agent that is not registered: no handler runs. *)
Lemma processMessage_unknown_target :
  exists s' r,
    processMessage failingHandlers (pendingFor (js "nobody"))
    = (s', Return r)
    /\ success r = false
    /\ result_error r = Some (js "Agent nobody not found")
    /\ status (messageObj s') = js "failed"
    /\ world s' = 0%nat.
Proof.
  eexists. eexists. vm_compute. repeat split; reflexivity.
Qed.

End RouterExamples.

(** * Further properties of the argument agent *)

(** ** Session history and progress *)

Section History.
Import JS Num A2AAgent Spec Spec2.
Local Open Scope Q_scope.

(** [storeAnalysis] appends one entry to the history of its session,
    starting it when the session is new, and leaves every other session as
    it was. *)
Theorem storeAnalysis_lookup
    (analysisHistory : gmap jsstring (list HistoryEntry.t)) (now : N)
    (sessionId other : jsstring) (analysis : Analysis.t)
    (feedback : list FeedbackItem.t) :
  storeAnalysis analysisHistory now sessionId analysis feedback !! other
  = if decide (other = sessionId)
    then Some (default [] (analysisHistory !! sessionId)
               ++ [HistoryEntry.mk now analysis feedback])
    else analysisHistory !! other.
Proof.
  unfold storeAnalysis.
  destruct (decide (other = sessionId)) as [-> | Hne].
  - destruct (analysisHistory !! sessionId) as [history | ] eqn:Hget.
    + rewrite lookup_alter_eq, Hget. reflexivity.
    + rewrite lookup_alter_eq, lookup_insert_eq. reflexivity.
  - rewrite lookup_alter_ne by congruence.
    destruct (analysisHistory !! sessionId); [reflexivity | ].
    rewrite lookup_insert_ne by congruence. reflexivity.
Qed.

Lemma slice_recent {A} (history : list A) :
  slice history (-3) None = drop (length history - 3) history.
Proof.
  unfold slice, relIndex. change (-3 <? 0)%Z with true. cbn iota.
  replace (Z.to_nat (Z.max (Z.of_nat (length history) + -3) 0))
    with (length history - 3)%nat by lia.
  apply take_ge. rewrite length_drop. lia.
Qed.

Lemma slice_older {A} (history : list A) :
  slice history (-6) (Some (-3)%Z)
  = take (length history - 3 - (length history - 6))
         (drop (length history - 6) history).
Proof.
  unfold slice, relIndex.
  change (-3 <? 0)%Z with true. change (-6 <? 0)%Z with true. cbn iota.
  replace (Z.to_nat (Z.max (Z.of_nat (length history) + -3) 0))
    with (length history - 3)%nat by lia.
  replace (Z.to_nat (Z.max (Z.of_nat (length history) + -6) 0))
    with (length history - 6)%nat by lia.
  reflexivity.
Qed.

Lemma length_slice_older {A} (history : list A) :
  length (slice history (-6) (Some (-3)%Z))
  = (Nat.min (length history) 6 - 3)%nat.
Proof. rewrite slice_older, length_take, length_drop. lia. Qed.

(** The two windows are next to each other: the older one followed by the
    recent one is the last six entries (all of them when there are fewer). *)
Theorem progress_windows {A} (history : list A) :
  slice history (-6) (Some (-3)%Z) ++ slice history (-3) None
  = lastSix history
  /\ length (slice history (-3) None) = Nat.min (length history) 3
  /\ length (slice history (-6) (Some (-3)%Z))
     = (Nat.min (length history) 6 - 3)%nat.
Proof.
  split; [ | split].
  - rewrite slice_older, slice_recent. unfold lastSix.
    replace (drop (length history - 3) history)
      with (drop (length history - 3 - (length history - 6))
                 (drop (length history - 6) history)).
    + apply take_drop.
    + rewrite drop_drop. f_equal. lia.
  - rewrite slice_recent, length_drop. lia.
  - apply length_slice_older.
Qed.

(** A session needs four stored analyses before a trend is reported: with
    fewer (or with no history at all) the answer is "insufficient_data",
    and with four or more it is one of the three trends, with both
    averages. *)
Theorem calculateProgress_needs_four
    (analysisHistory : gmap jsstring (list HistoryEntry.t))
    (sessionId : jsstring) :
  let history := default [] (analysisHistory !! sessionId) in
  let progress := calculateProgress analysisHistory sessionId in
  ((length history < 4)%nat
   /\ progress = Progress.mk (js "insufficient_data") 0 None None)
  \/ ((4 <= length history)%nat
      /\ In (Progress.trend progress)
            [js "improving"; js "declining"; js "stable"]
      /\ Progress.currentScore progress
         = Some (calculateAverageScore (slice history (-3) None))
      /\ Progress.previousScore progress
         = Some (calculateAverageScore (slice history (-6) (Some (-3)%Z)))).
Proof.
  cbn zeta. unfold calculateProgress.
  destruct (analysisHistory !! sessionId) as [history | ];
    [ | left; split; [cbn; lia | reflexivity]].
  change (default [] (Some history)) with history.
  destruct (Nat.ltb_spec (length history) 2) as [Hlt | Hge];
    [left; split; [lia | reflexivity] | ].
  pose proof (length_slice_older history) as Hlen.
  destruct (Nat.eqb_spec (length (slice history (-6) (Some (-3)%Z))) 0)
    as [Hzero | Hpos].
  - left. split; [lia | reflexivity].
  - right. split; [lia | ].
    cbn [Progress.trend Progress.currentScore Progress.previousScore].
    split; [ | split; reflexivity].
    destruct (gtb _ 0.1); [left; reflexivity | ].
    destruct (ltb _ (-0.1)); [right; left | right; right; left]; reflexivity.
Qed.

Lemma slice_lastSix_recent {A} (history : list A) :
  slice (lastSix history) (-3) None = slice history (-3) None.
Proof.
  rewrite !slice_recent. unfold lastSix.
  rewrite length_drop, drop_drop. f_equal. lia.
Qed.

Lemma slice_lastSix_older {A} (history : list A) :
  slice (lastSix history) (-6) (Some (-3)%Z)
  = slice history (-6) (Some (-3)%Z).
Proof.
  rewrite !slice_older. unfold lastSix.
  rewrite length_drop, drop_drop.
  replace (length history - 6
           + (length history - (length history - 6) - 6))%nat
    with (length history - 6)%nat by lia.
  f_equal. lia.
Qed.

(** Only the last six entries of a history matter: cutting every history
    down to them changes no progress report. *)
Theorem calculateProgress_lastSix
    (analysisHistory : gmap jsstring (list HistoryEntry.t))
    (sessionId : jsstring) :
  calculateProgress (lastSix <$> analysisHistory) sessionId
  = calculateProgress analysisHistory sessionId.
Proof.
  unfold calculateProgress. rewrite lookup_fmap.
  destruct (analysisHistory !! sessionId) as [history | ]; [ | reflexivity].
  cbn [fmap option_fmap option_map].
  rewrite slice_lastSix_recent, slice_lastSix_older.
  replace (length (lastSix history) <? 2)%nat
    with (length history <? 2)%nat; [reflexivity | ].
  unfold lastSix. rewrite length_drop.
  destruct (Nat.ltb_spec (length history) 2),
    (Nat.ltb_spec (length history - (length history - 6)) 2);
    try reflexivity; lia.
Qed.

(** [analyzeArgument] never gets an analysis (the source dependency is
    never returned), so it gives no result and records nothing. *)
Theorem analyzeArgument_records_nothing (fuel : nat)
    (analysisHistory : gmap jsstring (list HistoryEntry.t)) (now : N)
    (clock : nat -> jsstring * jsstring) (sessionId studentText : jsstring) :
  A2AOutput.analyzeArgument fuel analysisHistory now clock sessionId
    studentText
  = (analysisHistory, None).
Proof.
  unfold A2AOutput.analyzeArgument.
  destruct (performArgumentAnalysis_never_returns fuel studentText)
    as (_ & _ & ->).
  reflexivity.
Qed.

End History.

(** ** Feedback, challenges and recommendations *)

Section Output.
Import JS Num A2AAgent Spec A2AOutput.
Local Open Scope Q_scope.

(** Distinct literals are distinct strings. *)
Ltac distinct_literals :=
  match goal with
  | E : js _ = js _ |- _ => vm_compute in E; discriminate E
  end.

(** The weaknesses, rule by rule. *)
Lemma identifyWeaknesses_spec (d : Dimensions.t) (w : Weakness.t) :
  In w (identifyWeaknesses d) <->
  (w = Weakness.mk (js "thesis_weak") (js "Tesis")
         (Content.thesisClarity (Dimensions.content d)) (js "high")
   /\ Content.thesisClarity (Dimensions.content d) < 0.6)
  \/ (w = Weakness.mk (js "evidence_lacking") (js "Evidencia")
            (ofCount (Evidence.evidenceCount (Dimensions.evidence d)) / 5)
            (js "medium")
      /\ (Evidence.evidenceCount (Dimensions.evidence d) < 2)%nat)
  \/ (w = Weakness.mk (js "source_dependency") (js "Originalidad")
            (1 - Originality.sourceDependency (Dimensions.originality d))
            (js "high")
      /\ 0.7 < Originality.sourceDependency (Dimensions.originality d))
  \/ (w = Weakness.mk (js "reasoning_weak") (js "Razonamiento")
            (Reasoning.reasoningQuality (Dimensions.reasoning d))
            (js "medium")
      /\ Reasoning.reasoningQuality (Dimensions.reasoning d) < 0.6)
  \/ (w = Weakness.mk (js "critical_thinking_low") (js "Pensamiento Crítico")
            (CriticalThinking.overallLevel (Dimensions.criticalThinking d))
            (js "high")
      /\ CriticalThinking.overallLevel (Dimensions.criticalThinking d) < 0.5).
Proof.
  unfold identifyWeaknesses. cbn zeta.
  rewrite <- (map_id (pushIf _ _ _)), !In_map_pushIf. cbn [map In id].
  rewrite !ltb_lt, gtb_gt, Nat.ltb_lt. tauto.
Qed.

Lemma weakness_has_template (d : Dimensions.t) (w : Weakness.t) :
  In w (identifyWeaknesses d) ->
  exists template,
    feedbackTemplates !! Weakness.type w = Some template
    /\ FeedbackTemplate.priority template = Weakness.priority w.
Proof.
  intros Hw. apply identifyWeaknesses_spec in Hw.
  destruct Hw as [[-> _] | [[-> _] | [[-> _] | [[-> _] | [-> _]]]]];
    eexists; (split; [vm_compute; reflexivity | reflexivity]).
Qed.

(** Every weakness has a feedback template, and the priority written on
    the weakness is the priority of its template. *)
Theorem weakness_priority_matches_template (d : Dimensions.t) :
  Forall (fun w =>
            exists template,
              feedbackTemplates !! Weakness.type w = Some template
              /\ FeedbackTemplate.priority template = Weakness.priority w)
         (identifyWeaknesses d).
Proof.
  apply List.Forall_forall. intros w Hw. apply (weakness_has_template d w Hw).
Qed.

Lemma foldl_push {A B} (g : A -> B) (l : list A) (acc : list B) :
  foldl (fun acc x => acc ++ [g x]) acc l = acc ++ map g l.
Proof.
  revert acc. induction l as [ | x l IH]; intros acc; cbn [foldl map].
  - rewrite app_nil_r. reflexivity.
  - rewrite IH, <- app_assoc. reflexivity.
Qed.

(** The fold over the weaknesses, seen through a projection [proj] of the
    feedback items that can be read off the weakness. *)
Lemma foldl_templates {B} (proj : FeedbackItem.t -> B)
    (read : Weakness.t -> B) (l : list Weakness.t)
    (acc : list FeedbackItem.t) :
  (forall w, In w l ->
     exists template,
       feedbackTemplates !! Weakness.type w = Some template
       /\ proj (FeedbackItem.mk (Weakness.type w)
                  (FeedbackTemplate.message template)
                  (FeedbackTemplate.suggestion template)
                  (FeedbackTemplate.priority template)
                  (Weakness.area w) (Weakness.score w)) = read w) ->
  map proj
    (foldl (fun feedback weakness =>
              match feedbackTemplates !! Weakness.type weakness with
              | Some template =>
                  feedback ++
                  [FeedbackItem.mk
                     (Weakness.type weakness)
                     (FeedbackTemplate.message template)
                     (FeedbackTemplate.suggestion template)
                     (FeedbackTemplate.priority template)
                     (Weakness.area weakness)
                     (Weakness.score weakness)]
              | None => feedback
              end) acc l)
  = map proj acc ++ map read l.
Proof.
  revert acc. induction l as [ | w l IH]; intros acc H; cbn [foldl map].
  - rewrite app_nil_r. reflexivity.
  - destruct (H w (or_introl eq_refl)) as (template & -> & Hread).
    rewrite IH by (intros w' Hw'; apply H; right; exact Hw').
    rewrite map_app. cbn [map]. rewrite Hread, <- app_assoc. reflexivity.
Qed.

(** The feedback holds one item per weakness, in the order of the
    weaknesses and with their type, area and priority, followed by one
    item per strength, of type "strength" and priority "low": no weakness
    and no strength is dropped. *)
Theorem generatePersonalizedFeedback_layout (d : Dimensions.t) :
  let feedback := generatePersonalizedFeedback d in
  map FeedbackItem.type feedback
  = map Weakness.type (identifyWeaknesses d)
    ++ map (fun _ => js "strength") (identifyStrengths d)
  /\ map FeedbackItem.area feedback = weakAreas d ++ strongAreas d
  /\ map FeedbackItem.priority feedback
     = map Weakness.priority (identifyWeaknesses d)
       ++ map (fun _ => js "low") (identifyStrengths d)
  /\ length feedback
     = (length (identifyWeaknesses d) + length (identifyStrengths d))%nat.
Proof.
  cbn zeta. unfold generatePersonalizedFeedback. cbn zeta.
  rewrite foldl_push.
  assert (Htype : forall w, In w (identifyWeaknesses d) ->
            exists template,
              feedbackTemplates !! Weakness.type w = Some template
              /\ FeedbackItem.type
                   (FeedbackItem.mk (Weakness.type w)
                      (FeedbackTemplate.message template)
                      (FeedbackTemplate.suggestion template)
                      (FeedbackTemplate.priority template)
                      (Weakness.area w) (Weakness.score w))
                 = Weakness.type w).
  { intros w Hw. destruct (weakness_has_template d w Hw) as (t & Ht & _).
    exists t. split; [exact Ht | reflexivity]. }
  assert (Harea : forall w, In w (identifyWeaknesses d) ->
            exists template,
              feedbackTemplates !! Weakness.type w = Some template
              /\ FeedbackItem.area
                   (FeedbackItem.mk (Weakness.type w)
                      (FeedbackTemplate.message template)
                      (FeedbackTemplate.suggestion template)
                      (FeedbackTemplate.priority template)
                      (Weakness.area w) (Weakness.score w))
                 = Weakness.area w).
  { intros w Hw. destruct (weakness_has_template d w Hw) as (t & Ht & _).
    exists t. split; [exact Ht | reflexivity]. }
  assert (Hprio : forall w, In w (identifyWeaknesses d) ->
            exists template,
              feedbackTemplates !! Weakness.type w = Some template
              /\ FeedbackItem.priority
                   (FeedbackItem.mk (Weakness.type w)
                      (FeedbackTemplate.message template)
                      (FeedbackTemplate.suggestion template)
                      (FeedbackTemplate.priority template)
                      (Weakness.area w) (Weakness.score w))
                 = Weakness.priority w).
  { intros w Hw. destruct (weakness_has_template d w Hw) as (t & Ht & Hp).
    exists t. split; [exact Ht | exact Hp]. }
  assert (H1 : map FeedbackItem.type
                 (foldl (fun feedback weakness =>
                           match feedbackTemplates !! Weakness.type weakness
                           with
                           | Some template =>
                               feedback ++
                               [FeedbackItem.mk
                                  (Weakness.type weakness)
                                  (FeedbackTemplate.message template)
                                  (FeedbackTemplate.suggestion template)
                                  (FeedbackTemplate.priority template)
                                  (Weakness.area weakness)
                                  (Weakness.score weakness)]
                           | None => feedback
                           end) [] (identifyWeaknesses d)
                  ++ map (fun strength =>
                            FeedbackItem.mk (js "strength")
                              (js "Excelente trabajo en "
                               ++ Strength.area strength ++ js ". "
                               ++ Strength.message strength)
                              (js "Continúa desarrollando esta fortaleza")
                              (js "low") (Strength.area strength)
                              (Strength.score strength))
                         (identifyStrengths d))
               = map Weakness.type (identifyWeaknesses d)
                 ++ map (fun _ => js "strength") (identifyStrengths d)).
  { rewrite map_app, map_map, (foldl_templates _ _ _ [] Htype).
    reflexivity. }
  split; [exact H1 | ].
  split.
  { rewrite map_app, map_map, (foldl_templates _ _ _ [] Harea).
    reflexivity. }
  split.
  { rewrite map_app, map_map, (foldl_templates _ _ _ [] Hprio).
    reflexivity. }
  rewrite <- (length_map FeedbackItem.type), H1, length_app, !length_map.
  reflexivity.
Qed.

(** One challenge is made for every weakness but the source dependency,
    in the order of the weaknesses, with the type and the priority of its
    weakness. *)
Theorem generateMicroChallenges_layout (clock : nat -> jsstring * jsstring)
    (d : Dimensions.t) :
  let kept :=
    filter (fun w => Weakness.type w <> js "source_dependency")
           (identifyWeaknesses d) in
  map MicroChallenge.type (generateMicroChallenges clock d)
  = map Weakness.type kept
  /\ map MicroChallenge.priority (generateMicroChallenges clock d)
     = map Weakness.priority kept.
Proof.
  cbn zeta. unfold generateMicroChallenges, identifyWeaknesses. cbn zeta.
  destruct (ltb (Content.thesisClarity _) 0.6),
    (Evidence.evidenceCount _ <? 2)%nat,
    (gtb (Originality.sourceDependency _) 0.7),
    (ltb (Reasoning.reasoningQuality _) 0.6),
    (ltb (CriticalThinking.overallLevel _) 0.5);
    split; vm_compute; reflexivity.
Qed.

(** Chooses the rule of a rule-by-rule disjunction that the hypotheses
    give. *)
Ltac pick_rule :=
  solve [ assumption
        | split; [reflexivity | assumption]
        | left; pick_rule
        | right; pick_rule ].

(** The areas recommended, rule by rule. *)
Lemma generateRecommendations_spec (d : Dimensions.t) (area : jsstring) :
  In area (map Recommendation.area (generateRecommendations d)) <->
  (area = js "Estructura"
   /\ Structure.coherence (Dimensions.structure d) < 0.6)
  \/ (area = js "Contenido"
      /\ Content.thesisClarity (Dimensions.content d) < 0.6)
  \/ (area = js "Razonamiento"
      /\ Reasoning.reasoningQuality (Dimensions.reasoning d) < 0.6)
  \/ (area = js "Evidencia"
      /\ (Evidence.evidenceCount (Dimensions.evidence d) < 2)%nat).
Proof.
  unfold generateRecommendations. cbn zeta.
  rewrite !In_map_pushIf. cbn [map In Recommendation.area].
  rewrite !ltb_lt, Nat.ltb_lt. tauto.
Qed.

(** The recommendations follow the weaknesses: "Contenido" is recommended
    exactly when the thesis is flagged, "Razonamiento" when the reasoning
    is, "Evidencia" when the evidence is; "Estructura", which has no
    weakness of its own, when the coherence is below 0.6.  Nothing is
    recommended for the source dependency or for critical thinking. *)
Theorem recommendations_follow_weaknesses (d : Dimensions.t) :
  let recommended := map Recommendation.area (generateRecommendations d) in
  (In (js "Contenido") recommended <-> In (js "Tesis") (weakAreas d))
  /\ (In (js "Razonamiento") recommended
      <-> In (js "Razonamiento") (weakAreas d))
  /\ (In (js "Evidencia") recommended <-> In (js "Evidencia") (weakAreas d))
  /\ (In (js "Estructura") recommended
      <-> Structure.coherence (Dimensions.structure d) < 0.6)
  /\ ~ In (js "Originalidad") recommended
  /\ ~ In (js "Pensamiento Crítico") recommended.
Proof.
  cbn zeta. rewrite !generateRecommendations_spec, !weakAreas_spec.
  repeat split; intros H; decompose [or and] H;
    try distinct_literals; pick_rule.
Qed.

(** The thesis clarity is 0.8 at best, so the thesis is never praised; it
    is flagged exactly when no thesis indicator is found. *)
Theorem thesis_never_strong (sourceDependency : Q) (text : jsstring) :
  let d := dimensionsGiven sourceDependency text in
  ~ In (js "Tesis") (strongAreas d)
  /\ (In (js "Tesis") (weakAreas d) <-> detectThesis text = false).
Proof.
  cbn zeta. rewrite strongAreas_spec, weakAreas_spec.
  unfold dimensionsGiven, analyzeContent, assessThesisClarity.
  cbn [Dimensions.content Content.thesisClarity].
  destruct (detectThesis text); split.
  - intros H; decompose [or and] H; try distinct_literals; lra.
  - split; intros H; [ | discriminate H].
    decompose [or and] H; try distinct_literals; lra.
  - intros H; decompose [or and] H; try distinct_literals; lra.
  - split; intros H; [reflexivity | ].
    left. split; [reflexivity | lra].
Qed.

(** Fallacy words can only lower a score: the reasoning quality is never
    above the argument flow, which counts the same connections without
    them. *)
Theorem reasoningQuality_le_argumentFlow (text : jsstring) :
  assessReasoningQuality text <= assessArgumentFlow text.
Proof.
  unfold assessReasoningQuality, assessArgumentFlow. cbn zeta.
  pose proof (ofCount_nonneg (detectLogicalConnections text)) as Hc.
  pose proof (ofCount_nonneg (detectFallacies text)) as Hf.
  assert (Hle : (ofCount (detectLogicalConnections text)
                 - ofCount (detectFallacies text)) / 3
                <= ofCount (detectLogicalConnections text) / 3)
    by (apply div_le; lra).
  pose proof (div_nonneg 3 _ ltac:(lra) Hc) as Hpos.
  destruct (Q.max_spec 0
              (Qmin 1 ((ofCount (detectLogicalConnections text)
                        - ofCount (detectFallacies text)) / 3)))
    as [[_ ->] | [_ ->]];
    destruct (Q.min_spec 1
                ((ofCount (detectLogicalConnections text)
                  - ofCount (detectFallacies text)) / 3))
      as [[? E1] | [? E1]];
    destruct (Q.min_spec (ofCount (detectLogicalConnections text) / 3) 1)
      as [[? E2] | [? E2]];
    rewrite ?E1, ?E2; lra.
Qed.

End Output.

(** ** Counting *)

Section Counting.
Import JS Num A2AAgent Spec.
Local Open Scope Q_scope.





Ltac nonempty_literals :=
  repeat (apply List.Forall_cons; [vm_compute; discriminate | ]);
  apply List.Forall_nil.

(** The yes/no detectors agree with the counters: a thesis, an
    introduction or a conclusion is detected exactly when one of its
    indicators is counted at least once. *)
Theorem detectors_agree_with_counts (text : jsstring) :
  (detectThesis text = true <-> (0 < countIn thesisIndicators text)%nat)
  /\ (detectIntroduction text = true
      <-> (0 < countIn [js "introducción"; js "en primer lugar";
                        js "para comenzar"; js "inicialmente"] text)%nat)
  /\ (detectConclusion text = true
      <-> (0 < countIn [js "en conclusión"; js "finalmente";
                        js "para terminar"; js "en resumen"] text)%nat).
Proof.
  repeat split; try (apply someIn_countIn; nonempty_literals);
    intros H; apply (someIn_countIn _ text ltac:(nonempty_literals)) in H;
    exact H.
Qed.

(** The evidence indicators hang together: the count is the number of
    occurrences of the sixteen indicators, the types are the keys of the
    details, every detail is positive, and no type is listed exactly when
    the count is 0. *)
Theorem extractEvidenceIndicators_consistent (text : jsstring) :
  let e := extractEvidenceIndicators text in
  EvidenceIndicators.count e = countIn (concat (map snd evidenceTypes)) text
  /\ EvidenceIndicators.types e = map fst (EvidenceIndicators.details e)
  /\ Forall (fun detail => (0 < snd detail)%nat) (EvidenceIndicators.details e)
  /\ (EvidenceIndicators.types e = [] <-> EvidenceIndicators.count e = 0%nat).
Proof.
  cbn zeta. split; [apply extractEvidenceIndicators_count | ].
  split; [reflexivity | ].
  unfold extractEvidenceIndicators, evidenceTypes.
  cbn [foldl EvidenceIndicators.details EvidenceIndicators.types
       EvidenceIndicators.count].
  generalize (countIn [js "porcentaje"; js "estadística"; js "dato";
                       js "cifra"] text) as c1.
  generalize (countIn [js "ejemplo"; js "caso"; js "instancia";
                       js "muestra"] text) as c2.
  generalize (countIn [js "cita"; js "dice"; js "menciona"; js "afirma"]
                      text) as c3.
  generalize (countIn [js "según"; js "fuente"; js "referencia";
                       js "estudio"] text) as c4.
  intros c4 c3 c2 c1.
  destruct c1, c2, c3, c4;
    cbn [Nat.ltb Nat.leb app map fst snd foldl];
    (split;
     [ repeat (apply List.Forall_cons; [cbn [snd]; lia | ]);
       apply List.Forall_nil
     | split; intros H; first [ reflexivity | discriminate H | lia ] ]).
Qed.

Lemma foldl_trimmed_lengths (sentences : list jsstring) (acc : nat) :
  Forall (fun s => (0 < length (trim s))%nat) sentences ->
  (acc + length sentences
   <= foldl (fun sum sentence => (sum + length (trim sentence))%nat) acc
            sentences)%nat.
Proof.
  intros H. revert acc.
  induction H as [ | s sentences Hs _ IH]; intros acc; cbn [foldl length].
  - lia.
  - pose proof (IH (acc + length (trim s))%nat). lia.
Qed.

(** Either the text has no sentence, and the average sentence length is 0,
    or it has some, each with at least one character that is not white
    space, and the average is at least 1. *)
Theorem averageSentenceLength_floor (text : jsstring) :
  let structure := analyzeStructure text in
  (Structure.sentenceCount structure = 0%nat
   /\ Structure.averageSentenceLength structure == 0)
  \/ ((0 < Structure.sentenceCount structure)%nat
      /\ 1 <= Structure.averageSentenceLength structure).
Proof.
  cbn zeta. unfold analyzeStructure.
  cbn [Structure.sentenceCount Structure.averageSentenceLength].
  set (sentences := filter _ _).
  assert (Hall : Forall (fun s => (0 < length (trim s))%nat) sentences).
  { apply List.Forall_forall. intros s Hs.
    apply list_elem_of_In, list_elem_of_filter in Hs. apply Hs. }
  unfold calculateAverageSentenceLength.
  destruct (Nat.eqb_spec (length sentences) 0) as [Hzero | Hpos].
  - left. split; [exact Hzero | reflexivity].
  - right. split; [lia | ].
    pose proof (foldl_trimmed_lengths sentences 0 Hall) as Hsum.
    apply Qle_shift_div_l.
    + apply (ofCount_lt 0). lia.
    + rewrite Qmult_1_l. apply ofCount_le. lia.
Qed.

End Counting.

(** * Further properties of the router *)

(** ** Heuristics of the student and a2a roles *)

Section Heuristics.
Import JS Num Spec Spec2.
Import MCPServices.
Local Open Scope Q_scope.

Ltac distinct_literals :=
  match goal with
  | E : js _ = js _ |- _ => vm_compute in E; discriminate E
  end.

Ltac pick_rule :=
  solve [ assumption
        | split; [reflexivity | assumption]
        | left; pick_rule
        | right; pick_rule ].

(** A normalized count is above 0.7 from four occurrences on. *)
Lemma fifth_above_threshold (n : nat) :
  0.7 < Qmin (ofCount n / 5) 1 <-> (4 <= n)%nat.
Proof.
  split.
  - intros H. destruct (Nat.le_gt_cases 4 n) as [Hge | Hlt]; [exact Hge | ].
    exfalso. assert (Hn : ofCount n <= ofCount 3) by (apply ofCount_le; lia).
    pose proof (div_le 5 _ _ ltac:(lra) Hn) as Hdiv.
    pose proof (Q.le_min_l (ofCount n / 5) 1) as Hmin.
    assert (H3 : ofCount 3 / 5 == 3 # 5) by reflexivity.
    lra.
  - intros Hge. assert (Hn : ofCount 4 <= ofCount n) by (apply ofCount_le; lia).
    pose proof (div_le 5 _ _ ltac:(lra) Hn) as Hdiv.
    assert (H4 : ofCount 4 / 5 == 4 # 5) by reflexivity.
    destruct (Q.min_spec (ofCount n / 5) 1) as [[_ E] | [_ E]]; rewrite E; lra.
Qed.

(** A count over five is below 0.6 up to two occurrences. *)
Lemma fifth_below_threshold (n : nat) :
  ofCount n / 5 < 0.6 <-> (n < 3)%nat.
Proof.
  split.
  - intros H. destruct (Nat.le_gt_cases 3 n) as [Hge | Hlt]; [ | exact Hlt].
    exfalso. assert (Hn : ofCount 3 <= ofCount n) by (apply ofCount_le; lia).
    pose proof (div_le 5 _ _ ltac:(lra) Hn) as Hdiv.
    assert (H3 : ofCount 3 / 5 == 3 # 5) by reflexivity.
    lra.
  - intros Hlt. assert (Hn : ofCount n <= ofCount 2) by (apply ofCount_le; lia).
    pose proof (div_le 5 _ _ ltac:(lra) Hn) as Hdiv.
    assert (H2 : ofCount 2 / 5 == 2 # 5) by reflexivity.
    lra.
Qed.

(** The suggestions to a student: "thesis" when none of the three thesis
    phrases is in the text as written, "evidence" below two evidence
    indicators, "originality" from four source indicators on; nothing
    else. *)
Theorem generateStudentSuggestions_rules (text : jsstring) :
  let types :=
    map Suggestion.type (generateStudentSuggestions
                           (analyzeStudentArgument text)) in
  (In (js "thesis") types <-> detectThesis text = false)
  /\ (In (js "evidence") types <-> (countEvidence text < 2)%nat)
  /\ (In (js "originality") types
      <-> (4 <= A2AAgent.countIn sourceIndicators text)%nat)
  /\ Forall (fun type =>
               In type [js "thesis"; js "evidence"; js "originality"])
            types.
Proof.
  cbn zeta.
  assert (Hspec : forall type,
            In type (map Suggestion.type
                       (generateStudentSuggestions
                          (analyzeStudentArgument text)))
            <-> (type = js "thesis" /\ detectThesis text = false)
                \/ (type = js "evidence" /\ (countEvidence text < 2)%nat)
                \/ (type = js "originality"
                    /\ (4 <= A2AAgent.countIn sourceIndicators text)%nat)).
  { intros type.
    unfold generateStudentSuggestions, analyzeStudentArgument. cbn zeta.
    rewrite !In_map_pushIf.
    cbn [map In Suggestion.type StudentAnalysis.hasThesis
         StudentAnalysis.evidenceCount StudentAnalysis.sourceDependency].
    rewrite gtb_gt, Nat.ltb_lt, negb_true_iff.
    unfold assessSourceDependency. cbn zeta.
    rewrite fifth_above_threshold. tauto. }
  repeat split.
  - intros H. apply Hspec in H. decompose [or and] H;
      try distinct_literals; assumption.
  - intros H. apply Hspec. pick_rule.
  - intros H. apply Hspec in H. decompose [or and] H;
      try distinct_literals; assumption.
  - intros H. apply Hspec. pick_rule.
  - intros H. apply Hspec in H. decompose [or and] H;
      try distinct_literals; assumption.
  - intros H. apply Hspec. pick_rule.
  - apply List.Forall_forall. intros type H. apply Hspec in H.
    cbn [In]. decompose [or and] H; subst; tauto.
Qed.

(** For the a2a role the coherence and the logic are constants at or above
    the threshold, so the only feedback there can be is the one on
    evidence, given below three evidence indicators; and as no weakness is
    ever identified, nothing is recommended. *)
Theorem a2a_feedback_only_evidence (text : jsstring) :
  map Feedback.type
      (generateCriticalThinkingFeedback (analyzeArgumentStructure text))
  = (if (countEvidence text <? 3)%nat then [js "evidence"] else [])
  /\ generateRecommendations (analyzeArgumentStructure text) = [].
Proof.
  split; [ | reflexivity].
  unfold generateCriticalThinkingFeedback, analyzeArgumentStructure.
  cbn [ArgumentStructure.quality Quality.coherence Quality.logic
       Quality.evidence].
  cbn zeta.
  change (ltb (assessCoherence text) 0.6) with false.
  change (ltb (assessLogic text) 0.6) with false.
  cbn [A2AAgent.pushIf]. unfold assessEvidence.
  destruct (Nat.ltb_spec (countEvidence text) 3) as [Hlt | Hge].
  - apply fifth_below_threshold, ltb_lt in Hlt. rewrite Hlt. reflexivity.
  - destruct (ltb (ofCount (countEvidence text) / 5) 0.6) eqn:E;
      [ | reflexivity].
    apply ltb_lt, fifth_below_threshold in E. lia.
Qed.

End Heuristics.

(** ** Adaptations *)

Section Adaptations.
Import JS Num Spec Spec2.
Import MCPServices.
Local Open Scope Q_scope.

(** For each of the four styles the complementary styles are two different
    styles of the four, neither of them the style itself. *)
Theorem complementary_styles_distinct :
  Forall (fun style =>
            exists a b,
              getComplementaryStyles style = [a; b]
              /\ a <> b /\ a <> style /\ b <> style
              /\ In a knownStyles /\ In b knownStyles)
         knownStyles.
Proof.
  unfold knownStyles.
  repeat (apply List.Forall_cons;
          [ eexists; eexists;
            split; [vm_compute; reflexivity | ];
            repeat split;
            first [ intros E; vm_compute in E; discriminate E
                  | cbn [In]; tauto ] | ]).
  apply List.Forall_nil.
Qed.

(** For a detected style of the four: the adaptations start with the bundle
    of that style; when the confidence is below 0.7 (as it is whenever no
    confidence is recorded) the bundles of its two complementary styles
    follow, and otherwise there is nothing else.  Every bundle has four
    activities and four resources. *)
Theorem generatePersonalizedAdaptations_detected (title : option jsstring)
    (style : jsstring) (confianza : option Q) :
  In style knownStyles ->
  let styles := LearningStyles.mk (Some style) confianza in
  let adaptations := generatePersonalizedAdaptations title (Some styles) in
  map fst adaptations
  = (if ltb (confidenceOf styles) 0.7
     then style :: getComplementaryStyles style
     else [style])
  /\ Forall (fun entry =>
               entry.2 = generateStyleSpecificAdaptations entry.1 title
               /\ length (Bundle.actividades entry.2) = 4%nat
               /\ length (Bundle.recursos entry.2) = 4%nat)
            adaptations.
Proof.
  intros Hstyle. cbn zeta.
  unfold generatePersonalizedAdaptations.
  cbn [LearningStyles.estilo_detectado].
  unfold knownStyles in Hstyle. cbn [In] in Hstyle.
  destruct Hstyle as [<- | [<- | [<- | [<- | []]]]];
    destruct (ltb _ 0.7);
    (split;
     [ vm_compute; reflexivity
     | repeat (apply List.Forall_cons;
               [ split; [vm_compute; reflexivity | ];
                 split; vm_compute; reflexivity | ]);
       apply List.Forall_nil ]).
Qed.

Lemma generatePersonalizedAdaptations_detected_witness :
  In (js "visual") knownStyles
  /\ map fst (generatePersonalizedAdaptations (Some (js "El clima"))
                (Some (LearningStyles.mk (Some (js "visual")) None)))
     = [js "visual"; js "reading"; js "kinesthetic"].
Proof.
  assert (Hin : In (js "visual") knownStyles)
    by (unfold knownStyles; cbn [In]; tauto).
  split; [exact Hin | ].
  exact (proj1 (generatePersonalizedAdaptations_detected
                  (Some (js "El clima")) (js "visual") None Hin)).
Defined.

(** Without a detected style (no profile, no style name, or an empty one)
    the adaptations are the four default bundles, in the order visual,
    auditory, reading, kinesthetic. *)
Theorem generatePersonalizedAdaptations_default (title : option jsstring)
    (confianza : option Q) :
  generatePersonalizedAdaptations title None = generateDefaultAdaptations
  /\ generatePersonalizedAdaptations title
       (Some (LearningStyles.mk None confianza))
     = generateDefaultAdaptations
  /\ generatePersonalizedAdaptations title
       (Some (LearningStyles.mk (Some []) confianza))
     = generateDefaultAdaptations
  /\ map fst generateDefaultAdaptations = knownStyles.
Proof. repeat split. Qed.

End Adaptations.

(** ** Session contexts *)

Section Contexts.
Import JS Spec2.
Import MCPServices.

Context {Fields : Type}.

(** The contexts after a series of [setContext] on one session, each with
    its time and its properties. *)
Lemma setContext_other (contexts : gmap jsstring (StoredContext Fields))
    (now : N) (sessionId other : jsstring) (context : Fields) :
  other <> sessionId ->
  getContext (setContext contexts now sessionId context) other
  = getContext contexts other.
Proof.
  intros Hne. unfold getContext, setContext.
  rewrite lookup_insert_ne by congruence. reflexivity.
Qed.

(** The version of a session counts the calls of [setContext] on it: a
    series of calls adds its length to the version (0 for a session
    without context), the context read back is the last one written, and
    the other sessions are left as they were. *)
Theorem setContext_counts_versions
    (contexts : gmap jsstring (StoredContext Fields)) (sessionId : jsstring)
    (updates : list (N * Fields)) :
  let final :=
    foldl (fun contexts '(now, context) =>
             setContext contexts now sessionId context)
          contexts updates in
  default 0%N (version <$> getContext final sessionId)
  = (default 0%N (version <$> getContext contexts sessionId)
     + N.of_nat (length updates))%N
  /\ fields <$> getContext final sessionId
     = match last updates with
       | Some update => Some update.2
       | None => fields <$> getContext contexts sessionId
       end
  /\ delete sessionId final = delete sessionId contexts.
Proof.
  cbn zeta. revert contexts.
  induction updates as [ | [now context] updates IH]; intros contexts.
  - cbn [foldl length last]. rewrite N.add_0_r. repeat split.
  - cbn [foldl length].
    destruct (IH (setContext contexts now sessionId context))
      as (Hversion & Hfields & Hothers).
    split; [ | split].
    + rewrite Hversion. unfold getContext, setContext.
      rewrite lookup_insert_eq. unfold nextVersion.
      destruct (contexts !! sessionId); simpl; lia.
    + rewrite Hfields. destruct updates as [ | update updates].
      * cbn [last]. unfold getContext, setContext.
        rewrite lookup_insert_eq. reflexivity.
      * change (last ((now, context) :: update :: updates))
          with (last (update :: updates)).
        destruct (last (update :: updates)) as [latest | ] eqn:Hlast;
          [reflexivity | ].
        apply last_None in Hlast. discriminate Hlast.
    + rewrite Hothers. unfold setContext. apply delete_insert_eq.
Qed.

End Contexts.

(** ** Processing and sending *)

Section Sending.
Import JS Spec Spec2.
Import MCP MCPServices.

Context {Config Context Content Response World : Type}.

Implicit Types (handlers : Handlers Context Content Response World)
               (s : State Config Context Content Response World)
               (router : Router Config Context Content Response World).

(** What a run of [processMessage] leaves behind. *)
Lemma processMessage_run handlers s :
  exists s' r,
    processMessage handlers s = (s', Return r)
    /\ (contexts s' = contexts s /\ now s' = now s
        /\ agents s'
           = match agents s !! to (messageObj s) with
             | Some _ => alter (touched (now s)) (to (messageObj s)) (agents s)
             | None => agents s
             end)
    /\ (id (messageObj s') = id (messageObj s)
        /\ from (messageObj s') = from (messageObj s)
        /\ to (messageObj s') = to (messageObj s)
        /\ sessionId (messageObj s') = sessionId (messageObj s)
        /\ content (messageObj s') = content (messageObj s)
        /\ timestamp (messageObj s') = timestamp (messageObj s))
    /\ messageId r = id (messageObj s)
    /\ ((success r = true
         /\ status (messageObj s') = js "completed"
         /\ response (messageObj s') = result_response r
         /\ is_Some (result_response r)
         /\ result_error r = None
         /\ error (messageObj s') = error (messageObj s))
        \/ (success r = false
            /\ status (messageObj s') = js "failed"
            /\ error (messageObj s') = result_error r
            /\ is_Some (result_error r)
            /\ result_response r = None
            /\ response (messageObj s') = response (messageObj s))).
Proof.
  destruct s as [ctxs ags m clock w0].
  unfold processMessage, executeAgentAction, MCP.getContext, setMessage,
    touchAgent, invoke, tryCatch, bind, gets, modify, throw, ret.
  cbn -[dispatch js app alter].
  destruct (ags !! to m) as [agent | ] eqn:Hagent;
    cbn -[dispatch js app alter].
  - rewrite Hagent. cbn -[dispatch js app alter].
    destruct (dispatch handlers (to m)) as [handle | ];
      cbn -[dispatch js app alter].
    + destruct (handle _ w0) as [w [answer | e]];
        cbn -[dispatch js app alter];
        eexists; eexists; (split; [reflexivity | ]);
        cbn -[dispatch js app alter];
        (split; [repeat split | ]); (split; [repeat split | ]);
        (split; [reflexivity | ]).
      * left. repeat split. eexists. reflexivity.
      * right. repeat split. eexists. reflexivity.
    + eexists. eexists. split; [reflexivity | ].
      cbn -[dispatch js app alter].
      split; [repeat split | ]. split; [repeat split | ].
      split; [reflexivity | ].
      right. repeat split. eexists. reflexivity.
  - eexists. eexists. split; [reflexivity | ].
    cbn -[dispatch js app alter].
    split; [repeat split | ]. split; [repeat split | ].
    split; [reflexivity | ].
    right. repeat split. eexists. reflexivity.
Qed.

(** Processing a message changes nothing in the router but the time of
    last activity of the target agent, when it is registered: the contexts
    and the other agents are as before, and so are the id, the sender, the
    target, the session, the content and the time stamp of the message. *)
Theorem processMessage_frame handlers s :
  exists s' r,
    processMessage handlers s = (s', Return r)
    /\ contexts s' = contexts s
    /\ agents s'
       = match agents s !! to (messageObj s) with
         | Some _ => alter (touched (now s)) (to (messageObj s)) (agents s)
         | None => agents s
         end
    /\ dom (agents s') = dom (agents s)
    /\ id (messageObj s') = id (messageObj s)
    /\ from (messageObj s') = from (messageObj s)
    /\ to (messageObj s') = to (messageObj s)
    /\ sessionId (messageObj s') = sessionId (messageObj s)
    /\ content (messageObj s') = content (messageObj s)
    /\ timestamp (messageObj s') = timestamp (messageObj s).
Proof.
  destruct (processMessage_run handlers s)
    as (s' & r & Hrun & (Hctx & _ & Hagents) & Hfields & _).
  exists s', r. split; [exact Hrun | ]. split; [exact Hctx | ].
  split; [exact Hagents | ]. split; [ | exact Hfields].
  rewrite Hagents. destruct (agents s !! to (messageObj s));
    [apply dom_alter_L | reflexivity].
Qed.

(** [sendMessage] never throws.  It puts exactly one message at the end of
    the queue and leaves the earlier ones alone; that message carries the
    id given in the result and the arguments of the call, and when the call
    returns it is in a final state: "completed" with the response of a
    successful result, or "failed" with the error of a failed one. *)
Theorem sendMessage_queue handlers (stamp suffix fromAgentId toAgentId
    sessionId' : jsstring) (message : Content) router :
  exists router' r m,
    sendMessage handlers stamp suffix fromAgentId toAgentId message
      sessionId' router
    = (router', Return r)
    /\ messageQueue router' = messageQueue router ++ [m]
    /\ r_contexts router' = r_contexts router
    /\ id m = js "msg_" ++ stamp ++ js "_" ++ suffix
    /\ messageId r = id m
    /\ from m = fromAgentId /\ to m = toAgentId
    /\ sessionId m = sessionId' /\ content m = message
    /\ ((success r = true /\ status m = js "completed"
         /\ response m = result_response r /\ is_Some (response m)
         /\ error m = None)
        \/ (success r = false /\ status m = js "failed"
            /\ error m = result_error r /\ is_Some (error m)
            /\ response m = None)).
Proof.
  unfold sendMessage. cbn zeta.
  match goal with
  | |- context [processMessage handlers ?s0] =>
      destruct (processMessage_run handlers s0)
        as (s' & r & Hrun & (Hctx & _ & _) & Hfields & Hid & Hend);
      rewrite Hrun
  end.
  cbn [messageObj contexts id from to sessionId content timestamp response
       error] in Hctx, Hfields, Hid, Hend.
  destruct Hfields as (Hi & Hf & Ht & Hs & Hc & _).
  eexists. exists r, (messageObj s'). split; [reflexivity | ].
  cbn [messageQueue r_contexts].
  split; [reflexivity | ]. split; [exact Hctx | ].
  split; [exact Hi | ]. split; [congruence | ].
  split; [exact Hf | ]. split; [exact Ht | ].
  split; [exact Hs | ]. split; [exact Hc | ].
  destruct Hend as [(Hok & Hst & Hresp & Hsome & _ & Herr)
                   | (Hko & Hst & Herr & Hsome & Hnone & Hresp)].
  - left. repeat split; try assumption; congruence.
  - right. repeat split; try assumption; congruence.
Qed.

End Sending.

(** ** Letter case *)

Section LetterCase.
Import JS Num A2AAgent Spec.
Local Open Scope N_scope.

Lemma lowerUnit_idempotent (c : N) : lowerUnit (lowerUnit c) = lowerUnit c.
Proof.
  unfold lowerUnit.
  destruct (N.leb_spec 0x41 c), (N.leb_spec c 0x5A), (N.leb_spec 0xC0 c),
    (N.leb_spec c 0xDE), (N.eqb_spec c 0xD7); cbn [andb negb].
  all: repeat match goal with
         | |- context [(?a <=? ?b)] => destruct (N.leb_spec a b)
         | |- context [(?a =? ?b)] => destruct (N.eqb_spec a b)
         end; cbn [andb negb]; try reflexivity; lia.
Qed.

Lemma toLowerCase_idempotent (text : jsstring) :
  toLowerCase (toLowerCase text) = toLowerCase text.
Proof.
  unfold toLowerCase. rewrite map_map. apply map_ext.
  intros c. apply lowerUnit_idempotent.
Qed.

Lemma occurrences_toLowerCase (text indicator : jsstring) :
  occurrences (toLowerCase text) indicator = occurrences text indicator.
Proof. unfold occurrences. rewrite toLowerCase_idempotent. reflexivity. Qed.

Lemma countIn_toLowerCase (indicators : list jsstring) (text : jsstring) :
  countIn indicators (toLowerCase text) = countIn indicators text.
Proof.
  apply countIn_eq. intros q _. apply occurrences_toLowerCase.
Qed.

Lemma someIn_toLowerCase (indicators : list jsstring) (text : jsstring) :
  someIn indicators (toLowerCase text) = someIn indicators text.
Proof. unfold someIn. rewrite toLowerCase_idempotent. reflexivity. Qed.

(** Letter case does not count (for the capital letters of Basic Latin and
    Latin-1): a text and its lower-case form have the same occurrences of
    every indicator, so the same counts and the same answers of the
    detectors; and the learning style detected from a message is that of
    its lower-case form. *)
Theorem scoring_ignores_case (text : jsstring) :
  (forall indicators,
     countIn indicators (toLowerCase text) = countIn indicators text
     /\ someIn indicators (toLowerCase text) = someIn indicators text)
  /\ (forall c, categoryScore c (toLowerCase text) = categoryScore c text)
  /\ MCP.detectLearningStyle (toLowerCase text)
     = MCP.detectLearningStyle text.
Proof.
  split; [ | split].
  - intros indicators.
    split; [apply countIn_toLowerCase | apply someIn_toLowerCase].
  - intros c.
    destruct c; cbn [categoryScore];
      unfold assessCoherence, assessOrganization, assessDepth, assessBreadth,
        assessArgumentFlow, assessReasoningQuality, assessEvidenceQuality,
        calculateCriticalThinkingLevel, assessThesisClarity, detectThesis,
        assessSourceDependency_counting, detectLogicalConnections,
        detectFallacies, detectQuestioning, detectAnalysis, detectEvaluation,
        detectSynthesis, detectMetacognition, detectPersonalInsights,
        detectCreativeElements, calculateOverallScores, dimensionsGiven,
        analyzeStructure, analyzeContent, assessCoherence,
        assessOrganization, assessThesisClarity, detectThesis, assessDepth,
        assessBreadth, assessEvidenceQuality;
      cbn [Dimensions.structure Dimensions.content Dimensions.evidence
           Structure.coherence Structure.organization Content.thesisClarity
           Content.depth Content.breadth Evidence.evidenceQuality
           Evidence.evidenceRelevance Overall.structure Overall.content
           Overall.evidence];
      rewrite ?extractEvidenceIndicators_count, ?countIn_toLowerCase,
        ?someIn_toLowerCase;
      reflexivity.
  - unfold MCP.detectLearningStyle. rewrite toLowerCase_idempotent.
    reflexivity.
Qed.

End LetterCase.
